(** * Treasury review pipeline: the rule-based tools of [tool.py]

    A shallow embedding of the five scoring tools
    ([IntentAnalysisTool], [RiskAssessmentTool], [PolicyValidationTool],
    [LiquidityCheckTool], [AuditLogTool]) and the properties of their
    verdicts.

    Conventions of the embedding.
    - A Python [float] amount is its exact value, a rational [Q]; the
      comparisons of the source against integer thresholds are exact on
      floats, so they are the comparisons of [Q].  NaN and the infinities
      are outside the model.  Sums of score contributions are exact sums;
      where the float sum of the source differs, the definition says so.
    - Each [_run] builds a dict [result] and returns [json.dumps(result)];
      the embedding stops at the dict, a record with the same keys.
    - Library functions whose behaviour the tools only consume
      ([datetime.fromisoformat], the wall clock, [hash], [json]) are fields
      of a class; every theorem holds for all instances. *)

From Stdlib Require Import QArith ZArith String Ascii List Bool Lia Lqa Qround.
From stdpp Require Import gmap strings pretty.
Import ListNotations.

Local Open Scope string_scope.
Local Open Scope Q_scope.

(** ** Python numbers *)

Module PyNum.

(** [x > y], [x < y], [x <= y], [x >= y], [x == y] on exact values. *)
Definition gtb (x y : Q) : bool := negb (Qle_bool x y).
Definition ltb (x y : Q) : bool := gtb y x.
Definition leb (x y : Q) : bool := Qle_bool x y.
Definition geb (x y : Q) : bool := Qle_bool y x.
Definition eqb (x y : Q) : bool := Qeq_bool x y.

(** [x % y] for a positive divisor: [x - y * floor (x / y)]. *)
Definition mod_ (x y : Q) : Q := x - y * inject_Z (Qfloor (x / y)).

(** [min(x, y)]: Python returns the first argument unless the second is
    strictly smaller. *)
Definition min (x y : Q) : Q := if ltb y x then y else x.

(** Nearest integer, ties to the even neighbour. *)
Definition round_half_even (x : Q) : Z :=
  let f := Qfloor x in
  let r := x - inject_Z f in
  if ltb r (1 # 2) then f
  else if gtb r (1 # 2) then (f + 1)%Z
  else if Z.even f then f else (f + 1)%Z.

(** [round(x, 2)]. *)
Definition round2 (x : Q) : Q := inject_Z (round_half_even (x * 100)) / 100.

End PyNum.

Declare Scope py_scope.
Delimit Scope py_scope with py.
Infix ">?" := PyNum.gtb (at level 70, no associativity) : py_scope.
Infix "<?" := PyNum.ltb (at level 70, no associativity) : py_scope.
Infix "<=?" := PyNum.leb (at level 70, no associativity) : py_scope.
Infix ">=?" := PyNum.geb (at level 70, no associativity) : py_scope.
Infix "=?" := PyNum.eqb (at level 70, no associativity) : py_scope.
Local Open Scope py_scope.

(** ** Python strings *)

Module PyStr.

Definition lower_ascii (c : ascii) : ascii :=
  let n := nat_of_ascii c in
  if (65 <=? n)%nat && (n <=? 90)%nat then ascii_of_nat (n + 32) else c.

(** [s.lower()] on the ASCII letters; other bytes are kept.  [str.lower]
    also rewrites some non-ASCII code points, two of them into ASCII letters
    (U+212A to k, U+0130 to i followed by U+0307), so on text with such
    code points the keyword tests of the source can differ from the ones
    here.  No statement below depends on how non-ASCII text is lowered. *)
Fixpoint lower (s : string) : string :=
  match s with
  | EmptyString => EmptyString
  | String c t => String (lower_ascii c) (lower t)
  end.

(** [sub in s]: [sub] occurs in [s] as a contiguous substring. *)
Fixpoint contains (sub s : string) : bool :=
  String.prefix sub s ||
  match s with
  | EmptyString => false
  | String _ t => contains sub t
  end.

(** [any(p in s for p in patterns)] *)
Definition contains_any (patterns : list string) (s : string) : bool :=
  existsb (fun p => contains p s) patterns.

(** [x in xs] for a list of strings. *)
Definition elem (x : string) (xs : list string) : bool :=
  existsb (String.eqb x) xs.

End PyStr.

(** ** The datetime library and the wall clock *)

(** The two attributes of a parsed timestamp that the tools read:
    [tx_time.hour] and [tx_time.weekday()] (0 = Monday, 6 = Sunday). *)
Record datetime : Type := { hour : Z; weekday : Z }.

Class DatetimeLib : Type := {
  (** [datetime.fromisoformat(s)]; [None] when it raises. *)
  fromisoformat : string -> option datetime;
  (** [datetime.now().isoformat()] at the n-th reading of the clock. *)
  isoformat_at : nat -> string
}.

(** Computations that read the clock: the state is the number of readings
    taken so far. *)
Definition Clock (A : Type) : Type := nat -> A * nat.

Definition ret {A : Type} (a : A) : Clock A := fun t => (a, t).

Definition bind {A B : Type} (c : Clock A) (k : A -> Clock B) : Clock B :=
  fun t => let (a, t') := c t in k a t'.

Notation "x <- c ;; k" := (bind c (fun x => k))
  (at level 100, c at next level, right associativity).

Definition now_isoformat `{DatetimeLib} : Clock string :=
  fun t => (isoformat_at t, S t).

(** ** 2. Risk assessment tool *)

Module RiskAssessmentTool.

(** The two accumulators of [_run]. *)
Record acc : Type := { risk_score : Q; risk_factors : list string }.

(** [risk_score += d; risk_factors.append(tag)].  The sum here is exact.
    The float accumulator of the source can end one rounding step below it:
    in four of the 480 combinations of rules the exact sum is 0.5 and the
    float sum is 0.49999999999999994.  [round(risk_score, 2)] removes the
    difference from the reported score; the threshold tests that choose
    [risk_level], [recommendation] and the review flag see the accumulator,
    so in those four combinations the source reports the band below the one
    computed here.  No statement below says which band an input falls in. *)
Definition bump (d : Q) (tag : string) (st : acc) : acc :=
  {| risk_score := risk_score st + d; risk_factors := risk_factors st ++ [tag] |}.

Definition start : acc := {| risk_score := 0; risk_factors := [] |}.

(** 1. Amount-based risk *)
Definition amount_rule (amount : Q) (st : acc) : acc :=
  if amount >? 100000 then bump 0.25 "very_high_amount" st
  else if amount >? 50000 then bump 0.15 "high_amount" st
  else if amount >? 25000 then bump 0.08 "elevated_amount" st
  else st.

(** 2. Time-based risk; the [except] branch runs when the parse raises,
    before either check has touched the accumulators. *)
Definition time_rule `{DatetimeLib} (timestamp : string) (st : acc) : acc :=
  match fromisoformat timestamp with
  | Some tx_time =>
      let st1 :=
        if (hour tx_time <? 6)%Z || (hour tx_time >? 22)%Z
        then bump 0.12 "off_hours_transaction" st else st in
      if (weekday tx_time >=? 5)%Z
      then bump 0.08 "weekend_transaction" st1 else st1
  | None => bump 0.05 "invalid_timestamp" st
  end.

(** 3. Receiver risk *)
Definition suspicious_patterns : list string :=
  ["unknown"; "temp"; "test"; "cash"; "personal"].

Definition receiver_rule (receiver : string) (st : acc) : acc :=
  let receiver_lower := PyStr.lower receiver in
  if PyStr.contains_any suspicious_patterns receiver_lower
  then bump 0.20 "suspicious_receiver" st else st.

(** 4. Sender history risk *)
Definition history_rule (sender_history : string) (st : acc) : acc :=
  if String.eqb (PyStr.lower sender_history) "unknown"
  then bump 0.10 "unknown_sender_history" st
  else if PyStr.contains "new" (PyStr.lower sender_history)
  then bump 0.08 "new_sender" st
  else st.

(** 5. Intent-based risk *)
Definition high_risk_intents : list string := ["emergency"; "general"; "loan"].

Definition intent_rule (intent : string) (st : acc) : acc :=
  if PyStr.elem intent high_risk_intents
  then bump 0.10 ("high_risk_intent_" ++ intent) st else st.

(** 6. Round number risk *)
Definition round_rule (amount : Q) (st : acc) : acc :=
  if (PyNum.mod_ amount 10000 =? 0) && (amount >=? 10000)
  then bump 0.05 "suspicious_round_amount" st else st.

(** The accumulators after the six rules, before the cap. *)
Definition rules `{DatetimeLib}
    (amount : Q) (receiver intent timestamp sender_history : string) : acc :=
  round_rule amount
    (intent_rule intent
      (history_rule sender_history
        (receiver_rule receiver
          (time_rule timestamp
            (amount_rule amount start))))).

Definition risk_level_of (score : Q) : string :=
  if score <? 0.25 then "low"
  else if score <? 0.50 then "medium"
  else if score <? 0.75 then "high"
  else "critical".

Definition recommendation_of (score : Q) : string :=
  if score >=? 0.75 then "REJECT - Too risky"
  else if score >=? 0.50 then "ESCALATE - Human review required"
  else if score >=? 0.25 then "PROCEED - Acceptable risk"
  else "APPROVE - Low risk".

(** The dict [result]. *)
Record result : Type := {
  r_risk_score : Q;
  r_risk_level : string;
  r_risk_factors : list string;
  r_risk_factor_count : nat;
  r_requires_additional_review : bool;
  r_assessment_timestamp : string;
  r_recommendation : string
}.

Definition _run `{DatetimeLib}
    (amount : Q) (sender receiver intent timestamp sender_history : string)
    : Clock result :=
  let st := rules amount receiver intent timestamp sender_history in
  (* Cap risk score at 1.0 *)
  let score := PyNum.min (risk_score st) 1 in
  now <- now_isoformat ;;
  ret {| r_risk_score := PyNum.round2 score;
         r_risk_level := risk_level_of score;
         r_risk_factors := risk_factors st;
         r_risk_factor_count := List.length (risk_factors st);
         r_requires_additional_review := score >=? 0.50;
         r_assessment_timestamp := now;
         r_recommendation := recommendation_of score |}.

End RiskAssessmentTool.

(** ** Text formatting *)

Class PyFormat : Type := {
  (** the format spec [:,.2f] *)
  format_money : Q -> string;
  (** [str] of a list of strings, as interpolated by an f-string *)
  str_list : list string -> string
}.

(** ** 1. Intent analysis tool *)

Module IntentAnalysisTool.

(** The dict [intent_keywords], in its insertion order, which is the order
    [items()] iterates in. *)
Definition intent_keywords : list (string * list string) :=
  [ ("refund", ["refund"; "return"; "reimbursement"; "reversal"]);
    ("payroll", ["salary"; "wage"; "payroll"; "compensation"; "bonus"]);
    ("vendor", ["vendor"; "supplier"; "invoice"; "payment"; "purchase"]);
    ("investment", ["investment"; "equity"; "acquisition"; "stake"]);
    ("emergency", ["urgent"; "emergency"; "critical"; "immediate"]);
    ("tax", ["tax"; "vat"; "hmrc"; "duty"]);
    ("loan", ["loan"; "credit"; "financing"; "borrowing"]) ].

(** The loop with [break]: the first entry with a non-empty list of matches
    sets [detected_intent] and [matched_keywords]. *)
Fixpoint find_intent (table : list (string * list string)) (purpose_lower : string)
    : string * list string :=
  match table with
  | [] => ("general", [])
  | (intent_type, keywords) :: rest =>
      match List.filter (fun kw => PyStr.contains kw purpose_lower) keywords with
      | [] => find_intent rest purpose_lower
      | matches => (intent_type, matches)
      end
  end.

Definition urgency_keywords : list string :=
  ["urgent"; "emergency"; "immediate"; "asap"; "critical"].

Definition urgency_of (amount : Q) (purpose_lower : string) : string :=
  let urgency :=
    if PyStr.contains_any urgency_keywords purpose_lower then "high" else "medium" in
  if amount >? 50000 then "high"
  else if amount <? 1000 then "low"
  else urgency.

Definition confidence_of (detected_intent : string) (matched_keywords : list string) : Q :=
  let confidence := match matched_keywords with [] => 0.60 | _ => 0.95 end in
  if String.eqb detected_intent "general" then 0.50 else confidence.

(** The [try] block of the timing check. *)
Definition is_off_hours_of `{DatetimeLib} (timestamp : string) : bool :=
  match fromisoformat timestamp with
  | Some tx_time => (hour tx_time <? 6)%Z || (hour tx_time >? 22)%Z
  | None => false
  end.

Definition amount_category_of (amount : Q) : string :=
  if amount >? 25000 then "high" else if amount >? 5000 then "medium" else "low".

Record result : Type := {
  intent : string;
  urgency : string;
  confidence : Q;
  matched_keywords : list string;
  is_off_hours : bool;
  amount_category : string;
  analysis_timestamp : string;
  reasoning : string
}.

Definition _run `{DatetimeLib} `{PyFormat}
    (amount : Q) (sender receiver purpose timestamp context : string)
    : Clock result :=
  let purpose_lower := PyStr.lower purpose in
  let (detected_intent, matched) := find_intent intent_keywords purpose_lower in
  let urg := urgency_of amount purpose_lower in
  let conf := confidence_of detected_intent matched in
  let off := is_off_hours_of timestamp in
  now <- now_isoformat ;;
  ret {| intent := detected_intent;
         urgency := urg;
         confidence := PyNum.round2 conf;
         matched_keywords := matched;
         is_off_hours := off;
         amount_category := amount_category_of amount;
         analysis_timestamp := now;
         reasoning :=
           "Classified as '" ++ detected_intent ++ "' based on keywords: "
           ++ str_list matched ++ ". " ++ "Urgency: " ++ urg
           ++ " due to amount (Â£" ++ format_money amount ++ ") and purpose." |}.

End IntentAnalysisTool.

(** ** 3. Policy validation tool *)

Module PolicyValidationTool.

#[local] Instance Q_inhabited : Inhabited Q := populate 0.

Definition spending_limits : gmap string Q :=
  list_to_map
    [ ("refund", 15000); ("vendor", 30000); ("payroll", 150000);
      ("investment", 100000); ("emergency", 50000); ("tax", 200000);
      ("loan", 75000); ("general", 5000) ].

(** The six messages [violations.append] can add; a constructor carries the
    values interpolated into its message. *)
Inductive violation : Type :=
| ExceedsSpendingLimit (intent : string) (applicable_limit amount : Q)
| RequiresManagementPreApproval
| RequiresDirectorAuthorization
| RequiresDualAuthorization
| ReceiverBlocked
| ExceedsDailyLimit (daily_limit : Q).

Definition violation_text `{PyFormat} (v : violation) : string :=
  match v with
  | ExceedsSpendingLimit intent applicable_limit amount =>
      "Exceeds " ++ intent ++ " spending limit of Â£" ++ format_money applicable_limit
      ++ " " ++ "(requested: Â£" ++ format_money amount ++ ")"
  | RequiresManagementPreApproval =>
      "Requires management pre-approval for amounts over Â£10,000"
  | RequiresDirectorAuthorization =>
      "Requires director authorization for amounts over Â£50,000"
  | RequiresDualAuthorization =>
      "Requires dual authorization (two signatures) for amounts over Â£100,000"
  | ReceiverBlocked => "Receiver is on blocked/sanctioned list"
  | ExceedsDailyLimit daily_limit =>
      "Exceeds daily transaction limit of Â£" ++ format_money daily_limit
  end.

(** The two messages [warnings.append] can add. *)
Inductive warning : Type :=
| PostPaymentAudit
| AmlKycDocumentation.

Definition warning_text (w : warning) : string :=
  match w with
  | PostPaymentAudit =>
      "High urgency + high amount transactions require post-payment audit"
  | AmlKycDocumentation =>
      "Transaction requires AML/KYC documentation per regulatory requirements"
  end.

(** The three accumulators of [_run]. *)
Record acc : Type := {
  violations : list violation;
  warnings : list warning;
  policy_passed : bool
}.

Definition start : acc :=
  {| violations := []; warnings := []; policy_passed := true |}.

(** [violations.append(v); policy_passed = False] *)
Definition violate (v : violation) (st : acc) : acc :=
  {| violations := violations st ++ [v];
     warnings := warnings st;
     policy_passed := false |}.

(** [warnings.append(w)] *)
Definition warn (w : warning) (st : acc) : acc :=
  {| violations := violations st;
     warnings := warnings st ++ [w];
     policy_passed := policy_passed st |}.

(** [spending_limits.get(intent, spending_limits["general"])] *)
Definition applicable_limit_of (intent : string) : Q :=
  default (spending_limits !!! "general") (spending_limits !! intent).

(** 1. Check spending limits *)
Definition spending_limit_rule (amount : Q) (intent : string) (st : acc) : acc :=
  let applicable_limit := applicable_limit_of intent in
  if amount >? applicable_limit
  then violate (ExceedsSpendingLimit intent applicable_limit amount) st
  else st.

(** 2. Check approval requirements *)
Definition management_rule (amount : Q) (sender : string) (st : acc) : acc :=
  if (amount >? 10000)
     && negb (PyStr.contains "approved" (PyStr.lower sender))
     && negb (PyStr.contains "manager" (PyStr.lower sender))
  then violate RequiresManagementPreApproval st else st.

Definition director_rule (amount : Q) (sender : string) (st : acc) : acc :=
  if (amount >? 50000) && negb (PyStr.contains "director" (PyStr.lower sender))
  then violate RequiresDirectorAuthorization st else st.

(** 3. Multi-signature requirement *)
Definition dual_authorization_rule (amount : Q) (st : acc) : acc :=
  if amount >? 100000 then violate RequiresDualAuthorization st else st.

(** 4. Receiver validation *)
Definition blocked_keywords : list string := ["sanctioned"; "blacklist"; "blocked"].

Definition receiver_rule (receiver : string) (st : acc) : acc :=
  let receiver_lower := PyStr.lower receiver in
  if PyStr.contains_any blocked_keywords receiver_lower
  then violate ReceiverBlocked st else st.

(** 5. Emergency transaction policies *)
Definition emergency_rule (amount : Q) (urgency : string) (st : acc) : acc :=
  if String.eqb urgency "high" && (amount >? 25000)
  then warn PostPaymentAudit st else st.

(** 6. Daily transaction limit check *)
Definition daily_limit : Q := 200000.

Definition daily_limit_rule (amount : Q) (st : acc) : acc :=
  if amount >? daily_limit then violate (ExceedsDailyLimit daily_limit) st else st.

(** 7. AML/KYC checks for high amounts *)
Definition aml_kyc_rule (amount : Q) (st : acc) : acc :=
  if amount >? 10000 then warn AmlKycDocumentation st else st.

(** The accumulators after the seven checks. *)
Definition rules (amount : Q) (intent sender receiver urgency : string) : acc :=
  aml_kyc_rule amount
    (daily_limit_rule amount
      (emergency_rule amount urgency
        (receiver_rule receiver
          (dual_authorization_rule amount
            (director_rule amount sender
              (management_rule amount sender
                (spending_limit_rule amount intent start))))))).

Definition approval_level_of (amount : Q) : string :=
  if amount >? 100000 then "dual_authorization"
  else if amount >? 50000 then "director"
  else if amount >? 10000 then "manager"
  else "standard".

(** A non-empty list is truthy. *)
Definition truthy {A : Type} (l : list A) : bool :=
  match l with [] => false | _ => true end.

Definition compliance_score_of (passed : bool) (ws : list warning) : Q :=
  if passed && negb (truthy ws) then 1.0
  else if passed && truthy ws then 0.7
  else 0.0.

Record result : Type := {
  r_policy_passed : bool;
  r_violations : list violation;
  r_warnings : list warning;
  r_applicable_limit : Q;
  r_amount_within_limit : bool;
  r_approval_level_required : string;
  r_validation_timestamp : string;
  r_compliance_score : Q
}.

Definition _run `{DatetimeLib}
    (amount : Q) (intent sender receiver urgency : string) : Clock result :=
  let st := rules amount intent sender receiver urgency in
  let applicable_limit := applicable_limit_of intent in
  now <- now_isoformat ;;
  ret {| r_policy_passed := policy_passed st;
         r_violations := violations st;
         r_warnings := warnings st;
         r_applicable_limit := applicable_limit;
         r_amount_within_limit := amount <=? applicable_limit;
         r_approval_level_required := approval_level_of amount;
         r_validation_timestamp := now;
         r_compliance_score := compliance_score_of (policy_passed st) (warnings st) |}.

End PolicyValidationTool.

(** ** 4. Liquidity check tool *)

Module LiquidityCheckTool.

(** Simulated account data *)
Definition account_balances : gmap string Q :=
  list_to_map
    [ ("primary", 180000); ("reserve", 50000);
      ("payroll", 200000); ("operations", 75000) ].

(** Financial constraints *)
Definition minimum_reserve : Q := 25000.
Definition daily_transaction_limit : Q := 75000.
Definition monthly_budget_remaining : Q := 150000.

(** [account_balances.get(account_id, 150000)] *)
Definition current_balance_of (account_id : string) : Q :=
  default 150000 (account_balances !! account_id).

Inductive warning : Type :=
| CloseToMinimumReserve
| HighLiquidityImpact.

Definition warning_text (w : warning) : string :=
  match w with
  | CloseToMinimumReserve =>
      "Balance would fall close to minimum reserve threshold"
  | HighLiquidityImpact =>
      "Transaction represents >50% of available balance - high liquidity impact"
  end.

Inductive concern : Type :=
| BreachesMinimumReserve (minimum_reserve : Q)
| ExceedsDailyLimit (daily_transaction_limit : Q).

Definition concern_text `{PyFormat} (c : concern) : string :=
  match c with
  | BreachesMinimumReserve r =>
      "Transaction would breach minimum reserve requirement of Â£" ++ format_money r
  | ExceedsDailyLimit l =>
      "Exceeds daily transaction limit of Â£" ++ format_money l
  end.

(** [xs.append(x)] when [b] holds. *)
Definition append_if {A : Type} (b : bool) (x : A) (xs : list A) : list A :=
  if b then xs ++ [x] else xs.

Definition cash_flow_impact_of (amount : Q) (intent : string) : string :=
  if String.eqb intent "emergency" then "high_priority"
  else if amount >? 50000 then "significant"
  else if amount >? 10000 then "moderate"
  else "minimal".

(** The health band, from the remaining balance.  The remaining balance is
    the exact difference; the float difference of the source is rounded, so
    for an amount far below the last digit of the balance the source can
    sit on a band boundary where the exact difference is just inside the
    next band. *)
Definition liquidity_health_of (remaining_balance : Q) (sufficient_funds : bool) : string :=
  if remaining_balance >? minimum_reserve * 3 then "excellent"
  else if remaining_balance >? minimum_reserve * 2 then "good"
  else if sufficient_funds then "adequate"
  else "insufficient".

Record result : Type := {
  sufficient_funds : bool;
  financially_viable : bool;
  current_balance : Q;
  remaining_balance : Q;
  r_minimum_reserve : Q;
  reserve_cushion : Q;
  daily_limit : Q;
  within_daily_limit : bool;
  r_monthly_budget_remaining : Q;
  within_budget : bool;
  warnings : list warning;
  concerns : list concern;
  cash_flow_impact : string;
  liquidity_health : string;
  check_timestamp : string
}.

Definition _run `{DatetimeLib} (amount : Q) (account_id intent : string) : Clock result :=
  let balance := current_balance_of account_id in
  (* Calculate post-transaction balance *)
  let remaining := balance - amount in
  let sufficient := remaining >=? minimum_reserve in
  let within_daily := amount <=? daily_transaction_limit in
  let within_bud := amount <=? monthly_budget_remaining in
  (* Liquidity warnings *)
  let concerns1 :=
    append_if (remaining <? minimum_reserve) (BreachesMinimumReserve minimum_reserve) [] in
  let warnings1 :=
    append_if (remaining <? minimum_reserve * 1.2) CloseToMinimumReserve [] in
  let warnings2 :=
    append_if (amount >? balance * 0.5) HighLiquidityImpact warnings1 in
  let concerns2 :=
    append_if (negb within_daily) (ExceedsDailyLimit daily_transaction_limit) concerns1 in
  (* Overall feasibility *)
  let viable := sufficient && within_daily && within_bud in
  now <- now_isoformat ;;
  ret {| sufficient_funds := sufficient;
         financially_viable := viable;
         current_balance := balance;
         remaining_balance := remaining;
         r_minimum_reserve := minimum_reserve;
         reserve_cushion := if sufficient then remaining - minimum_reserve else 0;
         daily_limit := daily_transaction_limit;
         within_daily_limit := within_daily;
         r_monthly_budget_remaining := monthly_budget_remaining;
         within_budget := within_bud;
         warnings := warnings2;
         concerns := concerns2;
         cash_flow_impact := cash_flow_impact_of amount intent;
         liquidity_health := liquidity_health_of remaining sufficient;
         check_timestamp := now |}.

End LiquidityCheckTool.

(** ** 5. Audit logging tool *)

(** JSON values, as [json.loads] returns them and [json.dumps] takes them. *)
#[local] Unset Elimination Schemes.
Inductive json : Type :=
| JNull
| JBool (b : bool)
| JNum (q : Q)
| JStr (s : string)
| JArr (items : list json)
| JObj (members : list (string * json)).
#[local] Set Elimination Schemes.

Class PyBuiltins : Type := {
  (** the builtin [hash] on [str] *)
  py_hash : string -> Z;
  (** [json.dumps(v, sort_keys=True)] *)
  json_dumps_sorted : json -> string;
  (** [json.loads(s)]; [None] when it raises *)
  json_loads : string -> option json;
  (** [str(v)] *)
  py_str : json -> string
}.

Module AuditLogTool.

Record audit_trail : Type := {
  intent_analysis_completed : bool;
  risk_assessment_completed : bool;
  policy_validation_completed : bool;
  liquidity_check_completed : bool;
  final_decision_made : bool
}.

Record compliance_flags : Type := {
  complete_audit_trail : bool;
  all_agents_consulted : bool;
  decision_documented : bool;
  timestamp_recorded : bool
}.

(** The dict [audit_record]. *)
Record audit_record : Type := {
  audit_id : string;
  transaction_id : string;
  timestamp : string;
  decision : string;
  decision_maker : string;
  rationale : string;
  agent_outputs : json;
  trail : audit_trail;
  flags : compliance_flags;
  verification_hash : Z
}.

(** Parse agent outputs if it's a JSON string *)
Definition outputs_dict_of `{PyBuiltins} (agent_outputs : string) : json :=
  match json_loads agent_outputs with
  | Some v => v
  | None => JObj [("raw", JStr agent_outputs)]
  end.

(** The dict that is serialised and hashed: the keys [tx_id], [decision]
    and [timestamp], the last one a fresh reading of the clock. *)
Definition hashed_payload (transaction_id decision now : string) : json :=
  JObj [ ("tx_id", JStr transaction_id);
         ("decision", JStr decision);
         ("timestamp", JStr now) ].

(** The dict display evaluates its values in order: the clock is read once
    for [timestamp] and once more inside the hashed payload. *)
Definition make_audit_record `{DatetimeLib} `{PyBuiltins}
    (transaction_id decision agent_outputs rationale decision_maker : string)
    : Clock audit_record :=
  let outputs_dict := outputs_dict_of agent_outputs in
  now1 <- now_isoformat ;;
  now2 <- now_isoformat ;;
  ret {| audit_id := "AUDIT-" ++ transaction_id;
         transaction_id := transaction_id;
         timestamp := now1;
         decision := decision;
         decision_maker := decision_maker;
         rationale := rationale;
         agent_outputs := outputs_dict;
         trail :=
           {| intent_analysis_completed := PyStr.contains "intent" (py_str outputs_dict);
              risk_assessment_completed := PyStr.contains "risk" (py_str outputs_dict);
              policy_validation_completed := PyStr.contains "policy" (py_str outputs_dict);
              liquidity_check_completed := PyStr.contains "treasury" (py_str outputs_dict);
              final_decision_made := PyStr.elem decision ["APPROVE"; "REJECT"; "ESCALATE"] |};
         flags :=
           {| complete_audit_trail := true;
              all_agents_consulted := true;
              decision_documented := negb (String.eqb rationale EmptyString);
              timestamp_recorded := true |};
         verification_hash :=
           py_hash (json_dumps_sorted (hashed_payload transaction_id decision now2)) |}.

Record result : Type := {
  audit_logged : bool;
  r_audit_id : string;
  record_timestamp : string;
  r_verification_hash : Z;
  storage_location : string;
  compliance_status : string;
  record_retrievable : bool
}.

(** The record is printed to the console, which the embedding leaves out,
    and summarised in [result]. *)
Definition _run `{DatetimeLib} `{PyBuiltins}
    (transaction_id decision agent_outputs rationale decision_maker : string)
    : Clock result :=
  record <- make_audit_record transaction_id decision agent_outputs rationale decision_maker ;;
  ret {| audit_logged := true;
         r_audit_id := audit_id record;
         record_timestamp := timestamp record;
         r_verification_hash := verification_hash record;
         storage_location := "immutable_audit_database";
         compliance_status := "COMPLIANT";
         record_retrievable := true |}.

End AuditLogTool.

(** ** A reference runtime

    One instance of the library classes, for running the tools on concrete
    transactions: timestamps of the shape [YYYY-MM-DDTHH:MM:SS], a clock
    that ticks one second per reading, and the money format with two
    decimals and thousands separators. *)

Module Reference.

Definition digit (c : ascii) : option Z :=
  let n := Z.of_nat (nat_of_ascii c) in
  if (48 <=? n)%Z && (n <=? 57)%Z then Some (n - 48)%Z else None.

(** The decimal number written by a string of digits. *)
Fixpoint number_from (value : Z) (s : string) : option Z :=
  match s with
  | EmptyString => Some value
  | String c t =>
      match digit c with
      | Some d => number_from (10 * value + d)%Z t
      | None => None
      end
  end.

Definition number (s : string) : option Z :=
  match s with
  | EmptyString => None
  | _ => number_from 0%Z s
  end.

Definition is_leap (y : Z) : bool :=
  ((y mod 4 =? 0)%Z && negb (y mod 100 =? 0)%Z) || (y mod 400 =? 0)%Z.

Definition days_in_month (y m : Z) : Z :=
  if (m =? 2)%Z then (if is_leap y then 29 else 28)%Z
  else if (m =? 4)%Z || (m =? 6)%Z || (m =? 9)%Z || (m =? 11)%Z then 30%Z
  else 31%Z.

(** Days from 1970-01-01 to the civil date. *)
Definition days_from_civil (y m d : Z) : Z :=
  let y' := (if (m <=? 2)%Z then y - 1 else y)%Z in
  let era := (y' / 400)%Z in
  let yoe := (y' - era * 400)%Z in
  let mp := (if (m >? 2)%Z then m - 3 else m + 9)%Z in
  let doy := ((153 * mp + 2) / 5 + d - 1)%Z in
  let doe := (yoe * 365 + yoe / 4 - yoe / 100 + doy)%Z in
  (era * 146097 + doe - 719468)%Z.

(** Monday is 0; 1970-01-01 was a Thursday. *)
Definition weekday_of (y m d : Z) : Z := ((days_from_civil y m d + 3) mod 7)%Z.

Definition parse_iso_seconds (s : string) : option datetime :=
  if negb (Nat.eqb (String.length s) 19) then None else
  if negb (String.eqb (substring 4 1 s) "-" && String.eqb (substring 7 1 s) "-"
           && String.eqb (substring 10 1 s) "T"
           && String.eqb (substring 13 1 s) ":" && String.eqb (substring 16 1 s) ":")
  then None else
  match number (substring 0 4 s), number (substring 5 2 s), number (substring 8 2 s),
        number (substring 11 2 s), number (substring 14 2 s), number (substring 17 2 s) with
  | Some y, Some m, Some d, Some hh, Some mm, Some ss =>
      if (1 <=? y)%Z && (1 <=? m)%Z && (m <=? 12)%Z
         && (1 <=? d)%Z && (d <=? days_in_month y m)%Z
         && (hh <=? 23)%Z && (mm <=? 59)%Z && (ss <=? 59)%Z
      then Some {| hour := hh; weekday := weekday_of y m d |}
      else None
  | _, _, _, _, _, _ => None
  end.

Definition two_digits (n : Z) : string :=
  (if (n <? 10)%Z then "0" else EmptyString) ++ pretty n.

Definition clock_reading (n : nat) : string :=
  let s := Z.of_nat n in
  "2026-01-05T09:" ++ two_digits ((s / 60) mod 60) ++ ":" ++ two_digits (s mod 60).

Definition datetime_lib : DatetimeLib :=
  {| fromisoformat := parse_iso_seconds; isoformat_at := clock_reading |}.

(** Thousands separators, from the right. *)
Fixpoint group_thousands (fuel : nat) (n : Z) : string :=
  match fuel with
  | O => pretty n
  | S fuel' =>
      if (n <? 1000)%Z then pretty n
      else
        let low := (n mod 1000)%Z in
        group_thousands fuel' (n / 1000)
          ++ "," ++ (if (low <? 100)%Z then "0" else EmptyString) ++ two_digits low
  end.

Definition money (q : Q) : string :=
  let cents := PyNum.round_half_even (q * 100) in
  let a := Z.abs cents in
  (if (cents <? 0)%Z then "-" else EmptyString)
    ++ group_thousands 32 (a / 100) ++ "." ++ two_digits (a mod 100).

Definition quoted_list (l : list string) : string :=
  "[" ++ String.concat ", " (map (fun s => "'" ++ s ++ "'") l) ++ "]".

Definition format : PyFormat :=
  {| format_money := money; str_list := quoted_list |}.

End Reference.


(** ** Sample transactions

    The runs the examples below evaluate, on the reference runtime. *)

Module Samples.

Definition risk_run (amount : Q) (sender receiver intent timestamp sender_history : string)
    : RiskAssessmentTool.result :=
  fst (@RiskAssessmentTool._run Reference.datetime_lib
         amount sender receiver intent timestamp sender_history 0%nat).

Definition intent_run (amount : Q) (sender receiver purpose timestamp context : string)
    : IntentAnalysisTool.result :=
  fst (@IntentAnalysisTool._run Reference.datetime_lib Reference.format
         amount sender receiver purpose timestamp context 0%nat).

Definition policy_run (amount : Q) (intent sender receiver urgency : string)
    : PolicyValidationTool.result :=
  fst (@PolicyValidationTool._run Reference.datetime_lib
         amount intent sender receiver urgency 0%nat).

Definition liquidity_run (amount : Q) (account_id intent : string)
    : LiquidityCheckTool.result :=
  fst (@LiquidityCheckTool._run Reference.datetime_lib amount account_id intent 0%nat).

(** A payment of exactly 100000 on a Monday morning. *)
Definition risk_at_100000 : RiskAssessmentTool.result :=
  risk_run 100000 "Company Operations" "Acme Supplies Ltd" "vendor"
    "2026-01-05T10:00:00" "established".

(** A payment of exactly 5000. *)
Definition intent_at_5000 : IntentAnalysisTool.result :=
  intent_run 5000 "Company Operations" "Acme Supplies Ltd" "Vendor payment"
    "2026-01-05T10:00:00" EmptyString.

End Samples.

(** ** Predicates of the proofs *)

Module RiskInvariants.

Import RiskAssessmentTool.

(** The tags a rule appends and the score it adds do not depend on the
    accumulators it starts from. *)
Definition additive (rule : acc -> acc) : Prop :=
  forall st,
    risk_factors (rule st) = (risk_factors st ++ risk_factors (rule start))%list
    /\ risk_score (rule st) == risk_score st + risk_score (rule start)
    /\ 0 <= risk_score (rule start).

(** Tags of the rules other than the amount rule and the time rule. *)
Definition late_tags (amount : Q) (receiver intent sender_history : string) : list string :=
  (risk_factors (receiver_rule receiver start)
   ++ risk_factors (history_rule sender_history start)
   ++ risk_factors (intent_rule intent start)
   ++ risk_factors (round_rule amount start))%list.

Definition amount_tag (tag : string) : Prop :=
  tag = "very_high_amount" \/ tag = "high_amount" \/ tag = "elevated_amount".

Definition time_tag (tag : string) : Prop :=
  tag = "off_hours_transaction" \/ tag = "weekend_transaction"
  \/ tag = "invalid_timestamp".

End RiskInvariants.

Module PolicyInvariants.

Import PolicyValidationTool.

Definition is_spending_limit (v : violation) : bool :=
  match v with
  | ExceedsSpendingLimit _ _ _ => true
  | _ => false
  end.

(** The spending-limit violations among those recorded so far. *)
Definition spending_violations (st : acc) : list violation :=
  List.filter is_spending_limit (violations st).

(** [policy_passed] is true exactly while no violation has been recorded. *)
Definition consistent (st : acc) : Prop :=
  policy_passed st = negb (truthy (violations st)).

(** A check other than the spending-limit check: it keeps what was recorded,
    keeps the flag consistent and records no spending-limit violation. *)
Definition later_check (rule : acc -> acc) : Prop :=
  forall st,
    (forall v, In v (violations st) -> In v (violations (rule st)))
    /\ (forall w, In w (warnings st) -> In w (warnings (rule st)))
    /\ (consistent st -> consistent (rule st))
    /\ spending_violations (rule st) = spending_violations st.

End PolicyInvariants.

(** ** Predicates of the further properties *)

Module ScoreInvariants.

Import RiskAssessmentTool.

(** A score that is a whole number of hundredths. *)
Definition on_grid (q : Q) : Prop := exists k : Z, q * 100 == inject_Z k.

(** Every reported tag stands for a contribution between 0.05 and 0.25. *)
Definition tag_bounded (st : acc) : Prop :=
  on_grid (risk_score st)
  /\ 0.05 * inject_Z (Z.of_nat (List.length (risk_factors st))) <= risk_score st
  /\ risk_score st <= 0.25 * inject_Z (Z.of_nat (List.length (risk_factors st))).

(** The amount the source adds next to each [risk_factors.append]: the
    weight of a tag, by its text. *)
Definition tag_weight (tag : string) : Q :=
  if String.eqb tag "very_high_amount" then 0.25
  else if String.eqb tag "high_amount" then 0.15
  else if String.eqb tag "elevated_amount" then 0.08
  else if String.eqb tag "off_hours_transaction" then 0.12
  else if String.eqb tag "weekend_transaction" then 0.08
  else if String.eqb tag "invalid_timestamp" then 0.05
  else if String.eqb tag "suspicious_receiver" then 0.20
  else if String.eqb tag "unknown_sender_history" then 0.10
  else if String.eqb tag "new_sender" then 0.08
  else if String.prefix "high_risk_intent_" tag then 0.10
  else if String.eqb tag "suspicious_round_amount" then 0.05
  else 0.

Definition total_weight (tags : list string) : Q :=
  fold_right (fun tag total => tag_weight tag + total) 0 tags.

(** The score is the total weight of the tags recorded with it. *)
Definition weighted (st : acc) : Prop :=
  risk_score st == total_weight (risk_factors st).

End ScoreInvariants.

(** * Properties *)

(** ** Comparisons and rounding *)

Section PyNumFacts.

Lemma gtb_true (x y : Q) : (x >? y) = true <-> y < x.
Proof.
  unfold PyNum.gtb. rewrite negb_true_iff, <- not_true_iff_false, Qle_bool_iff.
  split; [apply Qnot_le_lt | apply Qlt_not_le].
Qed.

Lemma gtb_false (x y : Q) : (x >? y) = false <-> x <= y.
Proof.
  unfold PyNum.gtb. rewrite negb_false_iff. apply Qle_bool_iff.
Qed.

Lemma ltb_true (x y : Q) : (x <? y) = true <-> x < y.
Proof. apply gtb_true. Qed.

Lemma ltb_false (x y : Q) : (x <? y) = false <-> y <= x.
Proof. apply gtb_false. Qed.

Lemma leb_true (x y : Q) : (x <=? y) = true <-> x <= y.
Proof. apply Qle_bool_iff. Qed.

Lemma leb_false (x y : Q) : (x <=? y) = false <-> y < x.
Proof.
  unfold PyNum.leb. rewrite <- not_true_iff_false, Qle_bool_iff.
  split; [apply Qnot_le_lt | apply Qlt_not_le].
Qed.

Lemma geb_true (x y : Q) : (x >=? y) = true <-> y <= x.
Proof. apply Qle_bool_iff. Qed.

Lemma min_bounds (x : Q) : 0 <= x -> 0 <= PyNum.min x 1 <= 1.
Proof.
  intros Hx. unfold PyNum.min.
  destruct (1 <? x) eqn:E; cbv iota.
  - lra.
  - apply ltb_false in E. lra.
Qed.

(** Rounding to the nearest integer stays between integer bounds. *)
Lemma round_half_even_bounds (x : Q) (lo hi : Z) :
  inject_Z lo <= x -> x <= inject_Z hi ->
  (lo <= PyNum.round_half_even x <= hi)%Z.
Proof.
  intros Hlo Hhi.
  assert (Hf1 : (lo <= Qfloor x)%Z).
  { rewrite <- (Qfloor_Z lo). now apply Qfloor_resp_le. }
  assert (Hf2 : (Qfloor x <= hi)%Z).
  { rewrite <- (Qfloor_Z hi). now apply Qfloor_resp_le. }
  assert (Hup : (x - inject_Z (Qfloor x) < 1 # 2 -> False) ->
                (Qfloor x + 1 <= hi)%Z).
  { intros Hr.
    destruct (Z.eq_dec (Qfloor x) hi) as [Heq | Hne]; [| lia].
    exfalso. apply Hr.
    pose proof (Qfloor_le x) as Hle. rewrite Heq in *. lra. }
  unfold PyNum.round_half_even.
  destruct (x - inject_Z (Qfloor x) <? 1 # 2) eqn:E1; [lia |].
  apply ltb_false in E1.
  assert (Hs : (Qfloor x + 1 <= hi)%Z) by (apply Hup; lra).
  destruct (x - inject_Z (Qfloor x) >? 1 # 2); [lia |].
  destruct (Z.even (Qfloor x)); lia.
Qed.

Lemma round2_bounds (x : Q) : 0 <= x <= 1 -> 0 <= PyNum.round2 x <= 1.
Proof.
  intros [H0 H1].
  destruct (round_half_even_bounds (x * 100) 0 100) as [Hlo Hhi].
  - change (inject_Z 0) with 0. lra.
  - change (inject_Z 100) with 100. lra.
  - unfold PyNum.round2.
    rewrite Zle_Qle in Hlo, Hhi.
    change (inject_Z 0) with 0 in Hlo. change (inject_Z 100) with 100 in Hhi.
    set (z := inject_Z (PyNum.round_half_even (x * 100))) in *.
    split.
    + apply Qle_shift_div_l; lra.
    + apply Qle_shift_div_r; lra.
Qed.

End PyNumFacts.

(** ** Risk assessment: how the six rules compose *)

Section RiskFacts.

Context `{DatetimeLib}.
Import RiskAssessmentTool RiskInvariants.

Ltac rule_cases :=
  repeat match goal with
         | |- context [if ?c then _ else _] => destruct c
         | |- context [match ?c with Some _ => _ | None => _ end] => destruct c
         end;
  cbn [bump start risk_factors risk_score app];
  rewrite ?app_nil_r; repeat split; try reflexivity; try lra.

Lemma amount_rule_additive amount : additive (amount_rule amount).
Proof. intros st. unfold amount_rule. rule_cases. Qed.

Lemma time_rule_additive timestamp : additive (time_rule timestamp).
Proof.
  intros st. unfold time_rule. rule_cases.
  rewrite <- app_assoc. reflexivity.
Qed.

Lemma receiver_rule_additive receiver : additive (receiver_rule receiver).
Proof. intros st. unfold receiver_rule. rule_cases. Qed.

Lemma history_rule_additive sender_history : additive (history_rule sender_history).
Proof. intros st. unfold history_rule. rule_cases. Qed.

Lemma intent_rule_additive intent : additive (intent_rule intent).
Proof. intros st. unfold intent_rule. rule_cases. Qed.

Lemma round_rule_additive amount : additive (round_rule amount).
Proof. intros st. unfold round_rule. rule_cases. Qed.

(** The tags of a run, rule by rule. *)
Lemma rules_factors amount receiver intent timestamp sender_history :
  risk_factors (rules amount receiver intent timestamp sender_history) =
    (risk_factors (amount_rule amount start)
     ++ risk_factors (time_rule timestamp start)
     ++ risk_factors (receiver_rule receiver start)
     ++ risk_factors (history_rule sender_history start)
     ++ risk_factors (intent_rule intent start)
     ++ risk_factors (round_rule amount start))%list.
Proof.
  unfold rules.
  rewrite (proj1 (round_rule_additive amount _)).
  rewrite (proj1 (intent_rule_additive intent _)).
  rewrite (proj1 (history_rule_additive sender_history _)).
  rewrite (proj1 (receiver_rule_additive receiver _)).
  rewrite (proj1 (time_rule_additive timestamp _)).
  rewrite <- !app_assoc. reflexivity.
Qed.

(** The score of a run before the cap, rule by rule. *)
Lemma rules_score amount receiver intent timestamp sender_history :
  risk_score (rules amount receiver intent timestamp sender_history) ==
    risk_score (amount_rule amount start)
    + risk_score (time_rule timestamp start)
    + risk_score (receiver_rule receiver start)
    + risk_score (history_rule sender_history start)
    + risk_score (intent_rule intent start)
    + risk_score (round_rule amount start).
Proof.
  unfold rules.
  rewrite (proj1 (proj2 (round_rule_additive amount _))).
  rewrite (proj1 (proj2 (intent_rule_additive intent _))).
  rewrite (proj1 (proj2 (history_rule_additive sender_history _))).
  rewrite (proj1 (proj2 (receiver_rule_additive receiver _))).
  rewrite (proj1 (proj2 (time_rule_additive timestamp _))).
  reflexivity.
Qed.

Lemma rules_score_nonneg amount receiver intent timestamp sender_history :
  0 <= risk_score (rules amount receiver intent timestamp sender_history).
Proof.
  rewrite rules_score.
  pose proof (proj2 (proj2 (amount_rule_additive amount start))).
  pose proof (proj2 (proj2 (time_rule_additive timestamp start))).
  pose proof (proj2 (proj2 (receiver_rule_additive receiver start))).
  pose proof (proj2 (proj2 (history_rule_additive sender_history start))).
  pose proof (proj2 (proj2 (intent_rule_additive intent start))).
  pose proof (proj2 (proj2 (round_rule_additive amount start))).
  lra.
Qed.

(** What [_run] reports is what the rules accumulated. *)
Lemma run_risk_factors amount sender receiver intent timestamp sender_history t :
  r_risk_factors (fst (_run amount sender receiver intent timestamp sender_history t))
  = risk_factors (rules amount receiver intent timestamp sender_history).
Proof. reflexivity. Qed.

Lemma run_risk_score amount sender receiver intent timestamp sender_history t :
  r_risk_score (fst (_run amount sender receiver intent timestamp sender_history t))
  = PyNum.round2
      (PyNum.min (risk_score (rules amount receiver intent timestamp sender_history)) 1).
Proof. reflexivity. Qed.

Lemma late_tags_spec amount receiver intent sender_history tag :
  In tag (late_tags amount receiver intent sender_history) ->
  tag = "suspicious_receiver" \/ tag = "unknown_sender_history" \/ tag = "new_sender"
  \/ tag = "high_risk_intent_" ++ intent \/ tag = "suspicious_round_amount".
Proof.
  unfold late_tags, receiver_rule, history_rule, intent_rule, round_rule.
  repeat match goal with
         | |- context [if ?c then _ else _] => destruct c
         end;
  cbn [bump start risk_factors app In]; intuition auto.
Qed.

Lemma late_tags_not_amount amount receiver intent sender_history tag :
  In tag (late_tags amount receiver intent sender_history) -> ~ amount_tag tag.
Proof.
  intros Hin Htag. apply late_tags_spec in Hin.
  unfold amount_tag in Htag.
  destruct Htag as [-> | [-> | ->]];
    destruct Hin as [Hx | [Hx | [Hx | [Hx | Hx]]]]; simpl in Hx; discriminate Hx.
Qed.

Lemma late_tags_not_time amount receiver intent sender_history tag :
  In tag (late_tags amount receiver intent sender_history) -> ~ time_tag tag.
Proof.
  intros Hin Htag. apply late_tags_spec in Hin.
  unfold time_tag in Htag.
  destruct Htag as [-> | [-> | ->]];
    destruct Hin as [Hx | [Hx | [Hx | [Hx | Hx]]]]; simpl in Hx; discriminate Hx.
Qed.

Lemma time_rule_tags timestamp tag :
  In tag (risk_factors (time_rule timestamp start)) -> time_tag tag.
Proof.
  unfold time_rule, time_tag.
  repeat match goal with
         | |- context [if ?c then _ else _] => destruct c
         | |- context [match ?c with Some _ => _ | None => _ end] => destruct c
         end;
  cbn [bump start risk_factors app In]; intuition auto.
Qed.

Lemma amount_rule_tags amount tag :
  In tag (risk_factors (amount_rule amount start)) -> amount_tag tag.
Proof.
  unfold amount_rule, amount_tag.
  repeat match goal with
         | |- context [if ?c then _ else _] => destruct c
         end;
  cbn [bump start risk_factors app In]; intuition auto.
Qed.

(** A tier tag is in the report exactly when the amount rule appended it. *)
Lemma amount_tag_in_run amount sender receiver intent timestamp sender_history t tag :
  amount_tag tag ->
  In tag (r_risk_factors
            (fst (_run amount sender receiver intent timestamp sender_history t)))
  <-> In tag (risk_factors (amount_rule amount start)).
Proof.
  intros Htag. rewrite run_risk_factors, rules_factors.
  fold (late_tags amount receiver intent sender_history).
  rewrite !in_app_iff. split; [| tauto].
  intros [Ha | [Ht | Hl]]; [assumption | |].
  - exfalso. apply time_rule_tags in Ht.
    unfold amount_tag in Htag. unfold time_tag in Ht.
    destruct Htag as [-> | [-> | ->]]; destruct Ht as [Hx | [Hx | Hx]]; discriminate Hx.
  - exfalso. now apply late_tags_not_amount in Hl.
Qed.

(** A time tag is in the report exactly when the time rule appended it. *)
Lemma time_tag_in_run amount sender receiver intent timestamp sender_history t tag :
  time_tag tag ->
  In tag (r_risk_factors
            (fst (_run amount sender receiver intent timestamp sender_history t)))
  <-> In tag (risk_factors (time_rule timestamp start)).
Proof.
  intros Htag. rewrite run_risk_factors, rules_factors.
  fold (late_tags amount receiver intent sender_history).
  rewrite !in_app_iff. split; [| tauto].
  intros [Ha | [Ht | Hl]]; [| assumption |].
  - exfalso. apply amount_rule_tags in Ha.
    unfold amount_tag in Ha. unfold time_tag in Htag.
    destruct Htag as [-> | [-> | ->]]; destruct Ha as [Hx | [Hx | Hx]]; discriminate Hx.
  - exfalso. now apply late_tags_not_time in Hl.
Qed.

End RiskFacts.

(** ** Risk assessment: amount tiers, unparsable timestamps, the cap *)

Section RiskClaims.

Context `{DatetimeLib}.
Import RiskAssessmentTool RiskInvariants.

Ltac tier_cases amount :=
  unfold amount_rule;
  destruct (amount >? 100000) eqn:E1;
    [apply gtb_true in E1 | apply gtb_false in E1;
     destruct (amount >? 50000) eqn:E2;
       [apply gtb_true in E2 | apply gtb_false in E2;
        destruct (amount >? 25000) eqn:E3;
          [apply gtb_true in E3 | apply gtb_false in E3]]];
  cbn [bump start risk_factors risk_score app In].

(** Which tier tag the amount rule appends, by the amount. *)
Lemma amount_rule_tier amount :
  (In "very_high_amount" (risk_factors (amount_rule amount start)) <-> 100000 < amount)
  /\ (In "high_amount" (risk_factors (amount_rule amount start))
      <-> 50000 < amount /\ amount <= 100000)
  /\ (In "elevated_amount" (risk_factors (amount_rule amount start))
      <-> 25000 < amount /\ amount <= 50000).
Proof.
  tier_cases amount; repeat split; intros;
    repeat match goal with
           | Hx : _ \/ _ |- _ => destruct Hx
           | Hx : _ /\ _ |- _ => destruct Hx
           | Hx : False |- _ => destruct Hx
           | Hx : @eq string _ _ |- _ => discriminate Hx
           end;
    try lra; auto.
Qed.

(** C3, amended: for every amount strictly above 100000 the amount rule adds
    0.25 and the tag "very_high_amount", and the report carries neither
    "high_amount" nor "elevated_amount"; for every amount whatsoever no two
    of the three tier tags are reported together and the highest matching
    tier wins: "very_high_amount" is reported exactly above 100000,
    "high_amount" (+0.15) exactly above 50000 and up to 100000,
    "elevated_amount" (+0.08) exactly above 25000 and up to 50000, and up to
    25000 the amount rule adds nothing. *)
Theorem very_high_amount_tier_above_100000
    (amount : Q) (sender receiver intent timestamp sender_history : string) (t : nat) :
  100000 < amount ->
  let tags := r_risk_factors
                (fst (_run amount sender receiver intent timestamp sender_history t)) in
  (forall st,
      risk_score (amount_rule amount st) == risk_score st + 0.25
      /\ risk_factors (amount_rule amount st)
         = (risk_factors st ++ ["very_high_amount"])%list)
  /\ In "very_high_amount" tags
  /\ ~ In "high_amount" tags
  /\ ~ In "elevated_amount" tags
  /\ (forall amount' sender' receiver' intent' timestamp' sender_history' t',
         let tags' := r_risk_factors
                        (fst (_run amount' sender' receiver' intent' timestamp'
                                sender_history' t')) in
         ~ (In "very_high_amount" tags' /\ In "high_amount" tags')
         /\ ~ (In "very_high_amount" tags' /\ In "elevated_amount" tags')
         /\ ~ (In "high_amount" tags' /\ In "elevated_amount" tags')
         /\ (In "very_high_amount" tags' <-> 100000 < amount')
         /\ (In "high_amount" tags' <-> 50000 < amount' /\ amount' <= 100000)
         /\ (In "elevated_amount" tags' <-> 25000 < amount' /\ amount' <= 50000)
         /\ (forall st,
                (100000 < amount' ->
                 amount_rule amount' st = bump 0.25 "very_high_amount" st)
                /\ (50000 < amount' /\ amount' <= 100000 ->
                    amount_rule amount' st = bump 0.15 "high_amount" st)
                /\ (25000 < amount' /\ amount' <= 50000 ->
                    amount_rule amount' st = bump 0.08 "elevated_amount" st)
                /\ (amount' <= 25000 -> amount_rule amount' st = st))).
Proof.
  intros Hamount tags.
  destruct (amount_rule_tier amount) as (Hvh & Hh & He).
  split; [| split; [| split; [| split]]].
  - intros st. unfold amount_rule.
    apply gtb_true in Hamount. rewrite Hamount. cbn. split; reflexivity.
  - apply amount_tag_in_run; [unfold amount_tag; auto |]. now apply Hvh.
  - intros Hin. apply amount_tag_in_run in Hin; [| unfold amount_tag; auto].
    apply Hh in Hin. lra.
  - intros Hin. apply amount_tag_in_run in Hin; [| unfold amount_tag; auto].
    apply He in Hin. lra.
  - intros amount' sender' receiver' intent' timestamp' sender_history' t' tags'.
    destruct (amount_rule_tier amount') as (Hvh' & Hh' & He').
    unfold tags'.
    split; [| split; [| split; [| split; [| split; [| split]]]]].
    1-3: intros [Hx Hy];
      apply amount_tag_in_run in Hx; try (unfold amount_tag; auto; fail);
      apply amount_tag_in_run in Hy; try (unfold amount_tag; auto; fail);
      first [apply Hvh' in Hx | apply Hh' in Hx];
      first [apply Hh' in Hy | apply He' in Hy]; lra.
    + rewrite amount_tag_in_run by (unfold amount_tag; auto). exact Hvh'.
    + rewrite amount_tag_in_run by (unfold amount_tag; auto). exact Hh'.
    + rewrite amount_tag_in_run by (unfold amount_tag; auto). exact He'.
    + intros st. unfold amount_rule.
      destruct (amount' >? 100000) eqn:E1;
        [apply gtb_true in E1
        | apply gtb_false in E1; destruct (amount' >? 50000) eqn:E2;
          [apply gtb_true in E2
          | apply gtb_false in E2; destruct (amount' >? 25000) eqn:E3;
            [apply gtb_true in E3 | apply gtb_false in E3]]];
        repeat split; intros; try reflexivity; exfalso; lra.
Qed.

(** C6: when the timestamp does not parse, the time rule adds 0.05 and the tag
    "invalid_timestamp" and nothing else, so the score before the cap is the
    score of the other five rules plus 0.05; the report carries
    "invalid_timestamp" and neither "off_hours_transaction" nor
    "weekend_transaction"; and the intent tool reports [is_off_hours] false. *)
Theorem unparsable_timestamp_flat_penalty `{PyFormat}
    (amount : Q) (sender receiver purpose context intent timestamp sender_history : string)
    (t t' : nat) :
  fromisoformat timestamp = None ->
  let tags := r_risk_factors
                (fst (_run amount sender receiver intent timestamp sender_history t)) in
  (forall st,
      risk_score (time_rule timestamp st) == risk_score st + 0.05
      /\ risk_factors (time_rule timestamp st)
         = (risk_factors st ++ ["invalid_timestamp"])%list)
  /\ risk_score (rules amount receiver intent timestamp sender_history)
     == risk_score
          (round_rule amount
             (intent_rule intent
                (history_rule sender_history
                   (receiver_rule receiver (amount_rule amount start)))))
        + 0.05
  /\ In "invalid_timestamp" tags
  /\ ~ In "off_hours_transaction" tags
  /\ ~ In "weekend_transaction" tags
  /\ IntentAnalysisTool.is_off_hours
       (fst (IntentAnalysisTool._run amount sender receiver purpose timestamp context t'))
     = false.
Proof.
  intros Hparse tags.
  assert (Hrule : forall st, time_rule timestamp st = bump 0.05 "invalid_timestamp" st).
  { intros st. unfold time_rule. now rewrite Hparse. }
  split; [| split; [| split; [| split; [| split]]]].
  - intros st. rewrite Hrule. cbn. split; reflexivity.
  - pose proof (rules_score amount receiver intent timestamp sender_history) as Hall.
    rewrite (Hrule start) in Hall. cbn [bump start risk_score] in Hall.
    set (s1 := amount_rule amount start) in *.
    set (s2 := receiver_rule receiver s1).
    set (s3 := history_rule sender_history s2).
    set (s4 := intent_rule intent s3).
    pose proof (proj1 (proj2 (receiver_rule_additive receiver s1))) as H2.
    pose proof (proj1 (proj2 (history_rule_additive sender_history s2))) as H3.
    pose proof (proj1 (proj2 (intent_rule_additive intent s3))) as H4.
    pose proof (proj1 (proj2 (round_rule_additive amount s4))) as H5.
    fold s2 in H2. fold s3 in H3. fold s4 in H4.
    lra.
  - apply time_tag_in_run; [unfold time_tag; auto |].
    rewrite Hrule. cbn. auto.
  - intros Hin. apply time_tag_in_run in Hin; [| unfold time_tag; auto].
    rewrite Hrule in Hin. cbn in Hin. destruct Hin as [Hx | []]. discriminate Hx.
  - intros Hin. apply time_tag_in_run in Hin; [| unfold time_tag; auto].
    rewrite Hrule in Hin. cbn in Hin. destruct Hin as [Hx | []]. discriminate Hx.
  - unfold IntentAnalysisTool._run.
    destruct (IntentAnalysisTool.find_intent _ _) as [detected matched].
    cbn. unfold IntentAnalysisTool.is_off_hours_of. now rewrite Hparse.
Qed.

(** C7: for every input the reported risk score lies in [0, 1]. *)
Theorem risk_score_in_unit_interval
    (amount : Q) (sender receiver intent timestamp sender_history : string) (t : nat) :
  0 <= r_risk_score (fst (_run amount sender receiver intent timestamp sender_history t))
  /\ r_risk_score (fst (_run amount sender receiver intent timestamp sender_history t)) <= 1.
Proof.
  rewrite run_risk_score.
  apply round2_bounds, min_bounds, rules_score_nonneg.
Qed.

End RiskClaims.

(** ** Policy validation: what the seven checks preserve *)

Section PolicyFacts.

Import PolicyValidationTool PolicyInvariants.

Lemma consistent_violate v st : consistent (violate v st).
Proof.
  unfold consistent, violate. cbn.
  destruct (violations st); reflexivity.
Qed.

Lemma later_check_violate v st :
  is_spending_limit v = false ->
  (forall v', In v' (violations st) -> In v' (violations (violate v st)))
  /\ (forall w, In w (warnings st) -> In w (warnings (violate v st)))
  /\ (consistent st -> consistent (violate v st))
  /\ spending_violations (violate v st) = spending_violations st.
Proof.
  intros Hv. repeat split.
  - intros v' Hin. cbn. apply in_or_app. now left.
  - intros w Hin. exact Hin.
  - intros _. apply consistent_violate.
  - unfold spending_violations. cbn.
    rewrite List.filter_app. cbn. rewrite Hv. apply app_nil_r.
Qed.

Lemma later_check_warn w st :
  (forall v, In v (violations st) -> In v (violations (warn w st)))
  /\ (forall w', In w' (warnings st) -> In w' (warnings (warn w st)))
  /\ (consistent st -> consistent (warn w st))
  /\ spending_violations (warn w st) = spending_violations st.
Proof.
  repeat split.
  - intros v Hin. exact Hin.
  - intros w' Hin. cbn. apply in_or_app. now left.
  - intros Hc. exact Hc.
Qed.

Lemma later_check_skip (st : acc) :
  (forall v, In v (violations st) -> In v (violations st))
  /\ (forall w, In w (warnings st) -> In w (warnings st))
  /\ (consistent st -> consistent st)
  /\ spending_violations st = spending_violations st.
Proof. repeat split; auto. Qed.

Ltac later_check_tac :=
  intros st;
  match goal with
  | |- context [if ?c then _ else _] => destruct c
  end;
  first [ apply later_check_violate; reflexivity
        | apply later_check_warn
        | apply later_check_skip ].

Lemma management_rule_later amount sender : later_check (management_rule amount sender).
Proof. unfold management_rule. later_check_tac. Qed.

Lemma director_rule_later amount sender : later_check (director_rule amount sender).
Proof. unfold director_rule. later_check_tac. Qed.

Lemma dual_authorization_rule_later amount : later_check (dual_authorization_rule amount).
Proof. unfold dual_authorization_rule. later_check_tac. Qed.

Lemma receiver_rule_later receiver : later_check (receiver_rule receiver).
Proof. unfold receiver_rule. later_check_tac. Qed.

Lemma emergency_rule_later amount urgency : later_check (emergency_rule amount urgency).
Proof. unfold emergency_rule. later_check_tac. Qed.

Lemma daily_limit_rule_later amount : later_check (daily_limit_rule amount).
Proof. unfold daily_limit_rule. later_check_tac. Qed.

Lemma aml_kyc_rule_later amount : later_check (aml_kyc_rule amount).
Proof. unfold aml_kyc_rule. later_check_tac. Qed.

Lemma spending_limit_rule_consistent amount intent :
  consistent (spending_limit_rule amount intent start).
Proof.
  unfold spending_limit_rule.
  destruct (amount >? applicable_limit_of intent).
  - apply consistent_violate.
  - reflexivity.
Qed.

(** After the seven checks the flag is true exactly when the list of
    violations is empty. *)
Lemma rules_consistent amount intent sender receiver urgency :
  consistent (rules amount intent sender receiver urgency).
Proof.
  unfold rules.
  apply aml_kyc_rule_later, daily_limit_rule_later, emergency_rule_later,
    receiver_rule_later, dual_authorization_rule_later, director_rule_later,
    management_rule_later, spending_limit_rule_consistent.
Qed.

(** Only the first check records spending-limit violations. *)
Lemma rules_spending_violations amount intent sender receiver urgency :
  spending_violations (rules amount intent sender receiver urgency)
  = spending_violations (spending_limit_rule amount intent start).
Proof.
  unfold rules.
  rewrite (proj2 (proj2 (proj2 (aml_kyc_rule_later amount _)))).
  rewrite (proj2 (proj2 (proj2 (daily_limit_rule_later amount _)))).
  rewrite (proj2 (proj2 (proj2 (emergency_rule_later amount urgency _)))).
  rewrite (proj2 (proj2 (proj2 (receiver_rule_later receiver _)))).
  rewrite (proj2 (proj2 (proj2 (dual_authorization_rule_later amount _)))).
  rewrite (proj2 (proj2 (proj2 (director_rule_later amount sender _)))).
  rewrite (proj2 (proj2 (proj2 (management_rule_later amount sender _)))).
  reflexivity.
Qed.

Lemma in_spending_violations v st :
  In v (spending_violations st) <-> In v (violations st) /\ is_spending_limit v = true.
Proof. unfold spending_violations. apply List.filter_In. Qed.

(** A violation on record makes the policy fail. *)
Lemma violation_fails amount intent sender receiver urgency v :
  In v (violations (rules amount intent sender receiver urgency)) ->
  policy_passed (rules amount intent sender receiver urgency) = false.
Proof.
  intros Hin. rewrite rules_consistent.
  destruct (violations (rules amount intent sender receiver urgency)); [destruct Hin | reflexivity].
Qed.

End PolicyFacts.

(** ** Policy validation: dual authorization, limits, AML/KYC *)

Section PolicyClaims.

Context `{DatetimeLib}.
Import PolicyValidationTool PolicyInvariants.

(** C4: for every amount above 100000 and every sender text, the report
    carries the dual-authorization violation and [policy_passed] is false. *)
Theorem dual_authorization_above_100000
    (amount : Q) (intent sender receiver urgency : string) (t : nat) :
  100000 < amount ->
  let r := fst (_run amount intent sender receiver urgency t) in
  In RequiresDualAuthorization (r_violations r) /\ r_policy_passed r = false.
Proof.
  intros Hamount r.
  assert (Hin : In RequiresDualAuthorization
                  (violations (rules amount intent sender receiver urgency))).
  { unfold rules.
    apply aml_kyc_rule_later, daily_limit_rule_later, emergency_rule_later,
      receiver_rule_later.
    unfold dual_authorization_rule.
    apply gtb_true in Hamount. rewrite Hamount.
    cbn. apply in_or_app. right. now left. }
  split; [exact Hin |].
  exact (violation_fails _ _ _ _ _ _ Hin).
Qed.

(** C5: for every intent, at an amount equal to the applicable limit the
    spending-limit check changes nothing and the report carries no
    spending-limit violation; at the limit plus 0.01 the check records the
    spending-limit violation, which is in the report, and the policy fails. *)
Theorem spending_limit_boundary (intent sender receiver urgency : string) (t : nat) :
  let limit := applicable_limit_of intent in
  let at_limit := fst (_run limit intent sender receiver urgency t) in
  let above := fst (_run (limit + 0.01) intent sender receiver urgency t) in
  (forall st, spending_limit_rule limit intent st = st)
  /\ (forall i l a, ~ In (ExceedsSpendingLimit i l a) (r_violations at_limit))
  /\ r_amount_within_limit at_limit = true
  /\ (forall st,
         spending_limit_rule (limit + 0.01) intent st
         = violate (ExceedsSpendingLimit intent limit (limit + 0.01)) st)
  /\ In (ExceedsSpendingLimit intent limit (limit + 0.01)) (r_violations above)
  /\ r_policy_passed above = false
  /\ r_amount_within_limit above = false.
Proof.
  intros limit at_limit above.
  assert (Hat : (limit >? applicable_limit_of intent) = false).
  { apply gtb_false. apply Qle_refl. }
  assert (Habove : (limit + 0.01 >? applicable_limit_of intent) = true).
  { apply gtb_true. fold limit. lra. }
  assert (Hrule_at : forall st, spending_limit_rule limit intent st = st).
  { intros st. unfold spending_limit_rule. now rewrite Hat. }
  assert (Hrule_above : forall st,
             spending_limit_rule (limit + 0.01) intent st
             = violate (ExceedsSpendingLimit intent limit (limit + 0.01)) st).
  { intros st. unfold spending_limit_rule. now rewrite Habove. }
  assert (Hin : In (ExceedsSpendingLimit intent limit (limit + 0.01))
                  (violations (rules (limit + 0.01) intent sender receiver urgency))).
  { apply (in_spending_violations _ _).
    rewrite rules_spending_violations, Hrule_above. cbn. now left. }
  repeat split.
  - exact Hrule_at.
  - intros i l a Hin'.
    assert (Hs : In (ExceedsSpendingLimit i l a)
                   (spending_violations (rules limit intent sender receiver urgency))).
    { apply in_spending_violations. split; [exact Hin' | reflexivity]. }
    rewrite rules_spending_violations, Hrule_at in Hs. exact Hs.
  - cbn. apply leb_true. apply Qle_refl.
  - exact Hrule_above.
  - exact Hin.
  - exact (violation_fails _ _ _ _ _ _ Hin).
  - cbn. apply leb_false. fold limit. lra.
Qed.

(** C9: for every amount above 10000 the report carries the AML/KYC warning
    and its compliance score is not 1.0: it is 0.7 when the policy passed
    and 0.0 when it failed; and whenever the compliance score is 1.0 the
    amount is at most 10000. *)
Theorem aml_kyc_caps_compliance_score
    (amount : Q) (intent sender receiver urgency : string) (t : nat) :
  let r := fst (_run amount intent sender receiver urgency t) in
  (10000 < amount ->
     In AmlKycDocumentation (r_warnings r)
     /\ ~ r_compliance_score r == 1.0
     /\ (r_policy_passed r = true -> r_compliance_score r == 0.7)
     /\ (r_policy_passed r = false -> r_compliance_score r == 0.0))
  /\ (r_compliance_score r == 1.0 -> amount <= 10000).
Proof.
  intros r.
  assert (Hmain : 10000 < amount ->
     In AmlKycDocumentation (r_warnings r)
     /\ ~ r_compliance_score r == 1.0
     /\ (r_policy_passed r = true -> r_compliance_score r == 0.7)
     /\ (r_policy_passed r = false -> r_compliance_score r == 0.0)).
  { intros Hamount. apply gtb_true in Hamount.
    unfold r, _run, rules, aml_kyc_rule. cbn. rewrite Hamount.
    match goal with
    | |- context [warn AmlKycDocumentation ?s] => set (st := s)
    end.
    unfold compliance_score_of. cbn [warn warnings policy_passed violations].
    assert (Htruthy : truthy (warnings st ++ [AmlKycDocumentation]) = true).
    { destruct (warnings st); reflexivity. }
    rewrite Htruthy.
    split; [apply in_or_app; right; now left |].
    destruct (policy_passed st); cbn; repeat split; intros; try discriminate;
      try reflexivity; try (intros Hq; discriminate Hq). }
  split; [exact Hmain |].
  intros Hscore.
  destruct (Qlt_le_dec 10000 amount) as [Hlt | Hle]; [| exact Hle].
  exfalso. destruct (Hmain Hlt) as (_ & Hne & _). exact (Hne Hscore).
Qed.

End PolicyClaims.

(** ** Intent analysis: the amount bucket *)

Section IntentClaims.

Context `{DatetimeLib} `{PyFormat}.
Import IntentAnalysisTool.

Lemma run_amount_category amount sender receiver purpose timestamp context t :
  amount_category (fst (_run amount sender receiver purpose timestamp context t))
  = amount_category_of amount.
Proof.
  unfold _run. destruct (find_intent _ _) as [detected matched]. reflexivity.
Qed.

(** C8, amended: the bucket is "low" exactly when the amount is at most 5000,
    "medium" exactly when it is above 5000 and at most 25000, and "high"
    exactly when it is above 25000. *)
Theorem amount_category_thresholds
    (amount : Q) (sender receiver purpose timestamp context : string) (t : nat) :
  let c := amount_category
             (fst (_run amount sender receiver purpose timestamp context t)) in
  (c = "low" <-> amount <= 5000)
  /\ (c = "medium" <-> 5000 < amount /\ amount <= 25000)
  /\ (c = "high" <-> 25000 < amount).
Proof.
  cbv zeta. rewrite run_amount_category. unfold amount_category_of.
  destruct (amount >? 25000) eqn:E1;
    [apply gtb_true in E1
    | apply gtb_false in E1; destruct (amount >? 5000) eqn:E2;
      [apply gtb_true in E2 | apply gtb_false in E2]];
    repeat split; intros;
    repeat match goal with
           | Hx : _ /\ _ |- _ => destruct Hx
           | Hx : @eq string _ _ |- _ => discriminate Hx
           end;
    try lra.
Qed.

End IntentClaims.

(** ** Liquidity check: the daily limit *)

Section LiquidityClaims.

Context `{DatetimeLib}.
Import LiquidityCheckTool.

(** C10: for every account id and intent, [financially_viable] is true only
    if the amount is at most 75000; every amount above 75000 is reported
    not financially viable. *)
Theorem viable_only_within_daily_limit (amount : Q) (account_id intent : string) (t : nat) :
  let r := fst (_run amount account_id intent t) in
  (financially_viable r = true -> amount <= 75000)
  /\ (75000 < amount -> financially_viable r = false).
Proof.
  cbn. split.
  - intros Hv. apply andb_prop in Hv as [Hv _]. apply andb_prop in Hv as [_ Hd].
    apply leb_true in Hd. exact Hd.
  - intros Hgt. apply leb_false in Hgt. unfold daily_transaction_limit.
    rewrite Hgt. rewrite andb_false_r. reflexivity.
Qed.

End LiquidityClaims.

(** ** Audit logging: what the verification hash covers *)

Section AuditClaims.

Context `{DatetimeLib} `{PyBuiltins}.
Import AuditLogTool.

(** C1: the verification hash of a record is the hash of the serialised
    transaction id, decision and second clock reading of the call; it is the
    same for every two values of [agent_outputs], so a change to a stage
    output leaves it unchanged, and it follows the clock. *)
Theorem verification_hash_ignores_agent_outputs
    (transaction_id decision agent_outputs agent_outputs' rationale decision_maker : string)
    (t : nat) :
  r_verification_hash
    (fst (_run transaction_id decision agent_outputs rationale decision_maker t))
  = r_verification_hash
      (fst (_run transaction_id decision agent_outputs' rationale decision_maker t))
  /\ r_verification_hash
       (fst (_run transaction_id decision agent_outputs rationale decision_maker t))
     = py_hash (json_dumps_sorted
                  (JObj [ ("tx_id", JStr transaction_id);
                          ("decision", JStr decision);
                          ("timestamp", JStr (isoformat_at (S t))) ])).
Proof. split; reflexivity. Qed.

End AuditClaims.

(** ** The tools on sample transactions *)

Section Runs.

Import Samples.

Example spending_limit_table :
  map PolicyValidationTool.applicable_limit_of
    ["refund"; "vendor"; "payroll"; "investment"; "emergency"; "tax"; "loan";
     "general"; "transfer"]
  = [15000; 30000; 150000; 100000; 50000; 200000; 75000; 5000; 5000].
Proof. vm_compute. reflexivity. Qed.

Example midnight_vendor_payment_intent :
  IntentAnalysisTool.matched_keywords
    (intent_run 7500 "Company Operations" "Acme Supplies Ltd"
       "Vendor payment for Q1 supplies invoice #4521" "2026-01-03T00:30:00" EmptyString)
  = ["vendor"; "invoice"; "payment"]
  /\ IntentAnalysisTool.is_off_hours
       (intent_run 7500 "Company Operations" "Acme Supplies Ltd"
          "Vendor payment for Q1 supplies invoice #4521" "2026-01-03T00:30:00" EmptyString)
     = true.
Proof. vm_compute. split; reflexivity. Qed.

Example midnight_vendor_payment_risk :
  RiskAssessmentTool.r_risk_factors
    (risk_run 7500 "Company Operations" "Acme Supplies Ltd" "vendor"
       "2026-01-03T00:30:00" "unknown")
  = ["off_hours_transaction"; "weekend_transaction"; "unknown_sender_history"]
  /\ RiskAssessmentTool.r_risk_score
       (risk_run 7500 "Company Operations" "Acme Supplies Ltd" "vendor"
          "2026-01-03T00:30:00" "unknown")
     == 0.30.
Proof. vm_compute. split; reflexivity. Qed.

Example high_value_refund_policy :
  PolicyValidationTool.r_violations
    (policy_run 45000 "refund" "Customer Service" "Premium Client Corp" "high")
  = [PolicyValidationTool.ExceedsSpendingLimit "refund" 15000 45000;
     PolicyValidationTool.RequiresManagementPreApproval].
Proof. vm_compute. reflexivity. Qed.

Example director_payroll_needs_second_signature :
  PolicyValidationTool.r_violations
    (policy_run 110000 "payroll" "Finance Director (approved by manager)"
       "Staff Payroll Ltd" "medium")
  = [PolicyValidationTool.RequiresDualAuthorization].
Proof. vm_compute. reflexivity. Qed.

Example funded_account_above_daily_limit :
  LiquidityCheckTool.sufficient_funds (liquidity_run 80000 "payroll" "payroll") = true
  /\ LiquidityCheckTool.financially_viable (liquidity_run 80000 "payroll" "payroll")
     = false
  /\ LiquidityCheckTool.concerns (liquidity_run 80000 "payroll" "payroll")
     = [LiquidityCheckTool.ExceedsDailyLimit 75000].
Proof. vm_compute. repeat split. Qed.

Example round_amount_rule_fires :
  RiskAssessmentTool.r_risk_factors
    (risk_run 20000 "Company Operations" "Acme Supplies Ltd" "vendor"
       "2026-01-05T10:00:00" "established")
  = ["suspicious_round_amount"].
Proof. vm_compute. reflexivity. Qed.

(** At exactly 100000 the amount rule takes the second tier: the tag
    "high_amount" is reported and "very_high_amount" is not. *)
Lemma very_high_tier_not_at_100000 :
  ~ (100000 <= 100000 ->
     In "very_high_amount" (RiskAssessmentTool.r_risk_factors risk_at_100000)
     /\ ~ In "high_amount" (RiskAssessmentTool.r_risk_factors risk_at_100000)
     /\ ~ In "elevated_amount" (RiskAssessmentTool.r_risk_factors risk_at_100000)).
Proof.
  intros Hclaim.
  destruct (Hclaim (Qle_refl _)) as (_ & Hno & _).
  apply Hno. vm_compute. auto.
Qed.

(** At exactly 5000 the bucket is "low", not "medium". *)
Lemma amount_category_low_at_5000 :
  ~ ((IntentAnalysisTool.amount_category intent_at_5000 = "low" <-> 5000 < 5000)
     /\ (IntentAnalysisTool.amount_category intent_at_5000 = "medium"
         <-> 5000 <= 5000 /\ 5000 <= 25000)
     /\ (IntentAnalysisTool.amount_category intent_at_5000 = "high" <-> 25000 < 5000)).
Proof.
  intros (_ & Hmedium & _).
  assert (Hc : IntentAnalysisTool.amount_category intent_at_5000 = "medium")
    by (apply Hmedium; split; discriminate).
  vm_compute in Hc. discriminate Hc.
Qed.

Lemma very_high_amount_tier_at_110000 :
  100000 < 110000
  /\ In "very_high_amount"
       (RiskAssessmentTool.r_risk_factors
          (risk_run 110000 "Group Treasury" "Acme Supplies Ltd" "vendor"
             "2026-01-05T10:00:00" "established")).
Proof.
  assert (Hgt : 100000 < 110000) by reflexivity.
  split; [exact Hgt |].
  exact (proj1 (proj2 (very_high_amount_tier_above_100000
                         (H := Reference.datetime_lib) 110000
                         "Group Treasury" "Acme Supplies Ltd" "vendor"
                         "2026-01-05T10:00:00" "established" 0%nat Hgt))).
Defined.

Lemma dual_authorization_for_approved_director :
  100000 < 110000
  /\ PolicyValidationTool.r_policy_passed
       (policy_run 110000 "payroll" "Finance Director (approved by manager)"
          "Staff Payroll Ltd" "medium")
     = false.
Proof.
  assert (Hgt : 100000 < 110000) by reflexivity.
  split; [exact Hgt |].
  exact (proj2 (dual_authorization_above_100000
                  (H := Reference.datetime_lib) 110000 "payroll"
                  "Finance Director (approved by manager)" "Staff Payroll Ltd"
                  "medium" 0%nat Hgt)).
Defined.

Lemma unparsable_timestamp_next_tuesday :
  @fromisoformat Reference.datetime_lib "next Tuesday" = None
  /\ In "invalid_timestamp"
       (RiskAssessmentTool.r_risk_factors
          (risk_run 7500 "Company Operations" "Acme Supplies Ltd" "vendor"
             "next Tuesday" "established"))
  /\ IntentAnalysisTool.is_off_hours
       (intent_run 7500 "Company Operations" "Acme Supplies Ltd" "Vendor payment"
          "next Tuesday" EmptyString)
     = false.
Proof.
  assert (Hparse : @fromisoformat Reference.datetime_lib "next Tuesday" = None)
    by reflexivity.
  pose proof (unparsable_timestamp_flat_penalty
                (H := Reference.datetime_lib) (H0 := Reference.format) 7500
                "Company Operations" "Acme Supplies Ltd" "Vendor payment" EmptyString
                "vendor" "next Tuesday" "established" 0%nat 0%nat Hparse) as Hthm.
  split; [exact Hparse |].
  split; [exact (proj1 (proj2 (proj2 Hthm))) |].
  exact (proj2 (proj2 (proj2 (proj2 (proj2 Hthm))))).
Defined.

Lemma aml_kyc_on_approved_manager_payment :
  10000 < 12000
  /\ PolicyValidationTool.r_compliance_score
       (policy_run 12000 "vendor" "Approved by manager" "Acme Supplies Ltd" "medium")
     == 0.7.
Proof.
  assert (Hgt : 10000 < 12000) by reflexivity.
  split; [exact Hgt |].
  apply (proj1 (aml_kyc_caps_compliance_score
                  (H := Reference.datetime_lib) 12000 "vendor"
                  "Approved by manager" "Acme Supplies Ltd" "medium" 0%nat) Hgt).
  reflexivity.
Defined.

Lemma viable_payment_within_daily_limit :
  LiquidityCheckTool.financially_viable (liquidity_run 50000 "primary" "vendor") = true
  /\ 50000 <= 75000.
Proof.
  assert (Hv : LiquidityCheckTool.financially_viable
                 (liquidity_run 50000 "primary" "vendor") = true) by reflexivity.
  split; [exact Hv |].
  exact (proj1 (viable_only_within_daily_limit
                  (H := Reference.datetime_lib) 50000 "primary" "vendor" 0%nat) Hv).
Defined.

End Runs.

(** * Further properties *)

(** ** Substring search *)

Section SubstringFacts.

Lemma prefix_app (a b : string) :
  String.prefix a b = true <-> exists rest, b = a ++ rest.
Proof.
  revert b. induction a as [| c a IH]; intros b.
  - split; [intros _; now exists b | intros _; destruct b; reflexivity].
  - destruct b as [| c' b]; cbn.
    + split; [discriminate | intros [rest Hx]; discriminate Hx].
    + destruct (ascii_dec c c') as [<- | Hne].
      * rewrite IH. split; intros [rest Hx]; exists rest.
        -- now rewrite Hx.
        -- now injection Hx.
      * split; [discriminate |].
        intros [rest Hx]. injection Hx as Hc _. now elim Hne.
Qed.

(** [contains sub s] holds exactly when [s] is some text, then [sub], then
    some text. *)
Lemma contains_app (sub s : string) :
  PyStr.contains sub s = true <-> exists pre post, s = pre ++ sub ++ post.
Proof.
  induction s as [| c s IH]; cbn [PyStr.contains].
  - rewrite orb_false_r, prefix_app. split.
    + intros [rest Hx]. now exists EmptyString, rest.
    + intros (pre & post & Hx). destruct pre; [now exists post | discriminate Hx].
  - rewrite orb_true_iff, prefix_app, IH. split.
    + intros [[rest Hx] | (pre & post & Hx)].
      * now exists EmptyString, rest.
      * exists (String c pre), post. cbn. now rewrite Hx.
    + intros (pre & post & Hx). destruct pre as [| c' pre].
      * left. now exists post.
      * right. injection Hx as _ Hx. now exists pre, post.
Qed.

End SubstringFacts.

(** ** Intent analysis: the keyword scan, urgency and confidence *)

Section IntentScan.

Import IntentAnalysisTool.

(** The scan stops at the first entry with a keyword in the text. *)
Lemma find_intent_first_match table p before name kws after :
  table = (before ++ (name, kws) :: after)%list ->
  (forall c ks k, In (c, ks) before -> In k ks -> PyStr.contains k p = false) ->
  (exists k, In k kws /\ PyStr.contains k p = true) ->
  find_intent table p
  = (name, List.filter (fun kw => PyStr.contains kw p) kws).
Proof.
  intros -> Hbefore (k & Hk & Hkp).
  induction before as [| [c ks] before IH]; cbn [app find_intent].
  - destruct (List.filter (fun kw => PyStr.contains kw p) kws) eqn:E.
    + assert (Hin : In k (List.filter (fun kw => PyStr.contains kw p) kws))
        by (apply List.filter_In; auto).
      rewrite E in Hin. destruct Hin.
    + reflexivity.
  - destruct (List.filter (fun kw => PyStr.contains kw p) ks) as [| k' rest] eqn:E.
    + apply IH. intros c' ks' k'' Hin. apply (Hbefore c' ks' k''). now right.
    + assert (Hin : In k' (List.filter (fun kw => PyStr.contains kw p) ks))
        by (rewrite E; now left).
      apply List.filter_In in Hin as [Hin Htrue].
      rewrite (Hbefore c ks k') in Htrue; [discriminate | now left | exact Hin].
Qed.

(** What the scan returns: either no entry matches, or the entry it stopped
    at with the keywords of that entry found in the text. *)
Lemma find_intent_result table p :
  (find_intent table p = ("general", [])
   /\ forall c ks k, In (c, ks) table -> In k ks -> PyStr.contains k p = false)
  \/ (exists name kws,
        In (name, kws) table
        /\ List.filter (fun kw => PyStr.contains kw p) kws <> []
        /\ find_intent table p
           = (name, List.filter (fun kw => PyStr.contains kw p) kws)).
Proof.
  induction table as [| [c ks] table IH]; cbn [find_intent].
  - left. split; [reflexivity |]. intros c ks k [].
  - destruct (List.filter (fun kw => PyStr.contains kw p) ks) as [| k' rest] eqn:E.
    + destruct IH as [[Hg Hnone] | (name & kws & Hin & Hne & Hfind)].
      * left. split; [exact Hg |].
        intros c' ks' k [Heq | Hin] Hk.
        -- injection Heq as <- <-.
           destruct (PyStr.contains k p) eqn:Hkp; [| reflexivity].
           assert (Hf : In k (List.filter (fun kw => PyStr.contains kw p) ks))
             by (apply List.filter_In; auto).
           rewrite E in Hf. destruct Hf.
        -- exact (Hnone c' ks' k Hin Hk).
      * right. exists name, kws. split; [now right |]. split; assumption.
    + right. exists c, ks. split; [now left |]. rewrite E. split; [discriminate | reflexivity].
Qed.

Lemma intent_keywords_not_general name kws :
  In (name, kws) intent_keywords -> name <> "general".
Proof.
  unfold intent_keywords. cbn [In].
  intros Hin Hname. subst name.
  repeat destruct Hin as [Hin | Hin]; try discriminate Hin. destruct Hin.
Qed.

End IntentScan.

Section IntentExtras.

Context `{DatetimeLib} `{PyFormat}.
Import IntentAnalysisTool.

Lemma run_fields amount sender receiver purpose timestamp context t :
  let r := fst (_run amount sender receiver purpose timestamp context t) in
  (intent r, matched_keywords r) = find_intent intent_keywords (PyStr.lower purpose)
  /\ urgency r = urgency_of amount (PyStr.lower purpose)
  /\ confidence r = PyNum.round2 (confidence_of (intent r) (matched_keywords r)).
Proof.
  unfold _run. destruct (find_intent _ _) as [detected matched]. cbn. auto.
Qed.

(** X1: an amount above 50000 makes the urgency "high" and an amount below
    1000 makes it "low", whatever the purpose says. *)
Theorem urgency_follows_amount
    (amount : Q) (sender receiver purpose timestamp context : string) (t : nat) :
  let r := fst (_run amount sender receiver purpose timestamp context t) in
  (50000 < amount -> urgency r = "high")
  /\ (amount < 1000 -> urgency r = "low").
Proof.
  intros r. destruct (run_fields amount sender receiver purpose timestamp context t)
    as (_ & Hu & _). fold r in Hu. rewrite Hu. unfold urgency_of.
  split; intros Ha.
  - apply gtb_true in Ha. now rewrite Ha.
  - assert (Hle : (amount >? 50000) = false) by (apply gtb_false; lra).
    apply ltb_true in Ha. now rewrite Hle, Ha.
Qed.

(** X2: the intent is "general" exactly when no keyword matched, and the
    reported confidence is 0.5 for "general" and 0.95 for every other
    intent; 0.6 is never reported. *)
Theorem confidence_two_valued
    (amount : Q) (sender receiver purpose timestamp context : string) (t : nat) :
  let r := fst (_run amount sender receiver purpose timestamp context t) in
  (intent r = "general" <-> matched_keywords r = [])
  /\ (intent r = "general" -> confidence r == 0.5)
  /\ (intent r <> "general" -> confidence r == 0.95)
  /\ ~ confidence r == 0.6.
Proof.
  intros r. destruct (run_fields amount sender receiver purpose timestamp context t)
    as (Hf & _ & Hc). fold r in Hf, Hc.
  assert (Hcases : (intent r = "general" /\ matched_keywords r = [])
                   \/ (intent r <> "general" /\ matched_keywords r <> [])).
  { destruct (find_intent_result intent_keywords (PyStr.lower purpose))
      as [[Hg _] | (name & kws & Hin & Hne & Hfind)].
    - rewrite Hg in Hf. injection Hf as -> ->. now left.
    - rewrite Hfind in Hf. injection Hf as -> ->. right.
      split; [exact (intent_keywords_not_general _ _ Hin) | exact Hne]. }
  rewrite Hc. unfold confidence_of.
  destruct Hcases as [[Hi Hm] | [Hi Hm]].
  - rewrite Hi, Hm. cbn [String.eqb]. repeat split; try reflexivity; try discriminate.
    intros Hne. now elim Hne.
  - apply String.eqb_neq in Hi as Hb. rewrite Hb.
    destruct (matched_keywords r) as [| k rest]; [now elim Hm |].
    repeat split; try reflexivity; try discriminate; intros; try contradiction.
Qed.

(** X3: every matched keyword occurs as a contiguous piece of the lower-cased
    purpose and is listed under the detected intent in the keyword table. *)
Theorem matched_keywords_sound
    (amount : Q) (sender receiver purpose timestamp context kw : string) (t : nat) :
  let r := fst (_run amount sender receiver purpose timestamp context t) in
  In kw (matched_keywords r) ->
  (exists pre post, PyStr.lower purpose = pre ++ kw ++ post)
  /\ exists kws, In (intent r, kws) intent_keywords /\ In kw kws.
Proof.
  intros r. destruct (run_fields amount sender receiver purpose timestamp context t)
    as (Hf & _ & _). fold r in Hf.
  destruct (find_intent_result intent_keywords (PyStr.lower purpose))
    as [[Hg _] | (name & kws & Hin & Hne & Hfind)].
  - rewrite Hg in Hf. injection Hf as _ ->. intros [].
  - rewrite Hfind in Hf. injection Hf as -> ->.
    intros Hkw. apply List.filter_In in Hkw as [Hk Hp].
    split; [apply contains_app; exact Hp |]. exists kws. split; assumption.
Qed.

(** X4: the categories are tried in the order of the table: the first
    category with a keyword in the purpose is the intent, and the matched
    keywords are the keywords of that category found in the purpose. *)
Theorem intent_first_category_wins
    (amount : Q) (sender receiver purpose timestamp context : string) (t : nat)
    (before after : list (string * list string)) (name : string) (kws : list string) :
  intent_keywords = (before ++ (name, kws) :: after)%list ->
  (forall c ks k, In (c, ks) before -> In k ks ->
                  PyStr.contains k (PyStr.lower purpose) = false) ->
  (exists k, In k kws /\ PyStr.contains k (PyStr.lower purpose) = true) ->
  let r := fst (_run amount sender receiver purpose timestamp context t) in
  intent r = name
  /\ matched_keywords r
     = List.filter (fun kw => PyStr.contains kw (PyStr.lower purpose)) kws.
Proof.
  intros Htable Hbefore Hk r.
  destruct (run_fields amount sender receiver purpose timestamp context t)
    as (Hf & _ & _). fold r in Hf.
  rewrite (find_intent_first_match _ _ _ _ _ _ Htable Hbefore Hk) in Hf.
  injection Hf as -> ->. split; reflexivity.
Qed.

End IntentExtras.

(** ** Risk assessment: the score behind the report *)

Section RiskScoreFacts.

Import RiskAssessmentTool ScoreInvariants RiskInvariants.

Lemma round_half_even_integer (x : Q) (k : Z) :
  x == inject_Z k -> PyNum.round_half_even x = k.
Proof.
  intros Hx. unfold PyNum.round_half_even.
  assert (Hf : Qfloor x = k) by (rewrite <- (Qfloor_Z k); now apply Qfloor_comp).
  rewrite Hf.
  assert (Hr : (x - inject_Z k <? 1 # 2) = true) by (apply ltb_true; lra).
  now rewrite Hr.
Qed.

(** Rounding to two decimals keeps a whole number of hundredths. *)
Lemma round2_on_grid (x : Q) : on_grid x -> PyNum.round2 x == x.
Proof.
  intros [k Hk]. unfold PyNum.round2.
  rewrite (round_half_even_integer _ _ Hk), <- Hk. field.
Qed.

Lemma min_below_one (x : Q) : x <= 1 -> PyNum.min x 1 = x.
Proof.
  intros Hx. unfold PyNum.min.
  assert (Hb : (1 <? x) = false) by (apply ltb_false; exact Hx).
  now rewrite Hb.
Qed.

Lemma tag_bounded_start : tag_bounded start.
Proof.
  unfold tag_bounded, start, on_grid.
  cbn [risk_score risk_factors List.length].
  change (inject_Z (Z.of_nat 0)) with 0.
  split; [exists 0%Z; reflexivity | split; lra].
Qed.

Lemma tag_bounded_bump (k : Z) (d : Q) (tag : string) (st : acc) :
  d * 100 == inject_Z k -> 0.05 <= d -> d <= 0.25 ->
  tag_bounded st -> tag_bounded (bump d tag st).
Proof.
  intros Hd Hlo Hhi ([k0 Hk0] & Hmin & Hmax).
  unfold tag_bounded, bump. cbn [risk_score risk_factors].
  rewrite length_app. cbn [List.length].
  rewrite Nat.add_1_r, Nat2Z.inj_succ. unfold Z.succ. rewrite inject_Z_plus.
  change (inject_Z 1) with 1.
  split; [| split; lra].
  exists (k0 + k)%Z. rewrite inject_Z_plus. lra.
Qed.

Ltac bump_cases :=
  repeat match goal with
         | |- context [if ?c then _ else _] => destruct c
         | |- context [match ?c with Some _ => _ | None => _ end] => destruct c
         end;
  repeat first
    [ assumption
    | apply (tag_bounded_bump 25); [reflexivity | lra | lra |]
    | apply (tag_bounded_bump 20); [reflexivity | lra | lra |]
    | apply (tag_bounded_bump 15); [reflexivity | lra | lra |]
    | apply (tag_bounded_bump 12); [reflexivity | lra | lra |]
    | apply (tag_bounded_bump 10); [reflexivity | lra | lra |]
    | apply (tag_bounded_bump 8); [reflexivity | lra | lra |]
    | apply (tag_bounded_bump 5); [reflexivity | lra | lra |] ].

Lemma rules_tag_bounded `{DatetimeLib} amount receiver intent timestamp sender_history :
  tag_bounded (rules amount receiver intent timestamp sender_history).
Proof.
  pose proof tag_bounded_start as Hs.
  unfold rules, round_rule, intent_rule, history_rule, receiver_rule, time_rule,
    amount_rule.
  bump_cases.
Qed.

Ltac part_cases :=
  repeat match goal with
         | |- context [if ?c then _ else _] => destruct c
         | |- context [match ?c with Some _ => _ | None => _ end] => destruct c
         end;
  cbn [bump start risk_score]; lra.

(** The six rules together add at most 0.90. *)
Lemma rules_score_at_most `{DatetimeLib} amount receiver intent timestamp sender_history :
  risk_score (rules amount receiver intent timestamp sender_history) <= 0.9.
Proof.
  rewrite rules_score.
  assert (risk_score (amount_rule amount start) <= 0.25)
    by (unfold amount_rule; part_cases).
  assert (risk_score (time_rule timestamp start) <= 0.20)
    by (unfold time_rule; part_cases).
  assert (risk_score (receiver_rule receiver start) <= 0.20)
    by (unfold receiver_rule; part_cases).
  assert (risk_score (history_rule sender_history start) <= 0.10)
    by (unfold history_rule; part_cases).
  assert (risk_score (intent_rule intent start) <= 0.10)
    by (unfold intent_rule; part_cases).
  assert (risk_score (round_rule amount start) <= 0.05)
    by (unfold round_rule; part_cases).
  lra.
Qed.

Lemma total_weight_snoc (tags : list string) (tag : string) :
  total_weight (tags ++ [tag]) == total_weight tags + tag_weight tag.
Proof.
  induction tags as [| tag' tags IH]; cbn [app total_weight fold_right].
  - lra.
  - fold (total_weight (tags ++ [tag])). fold (total_weight tags). lra.
Qed.

Lemma weighted_bump (d : Q) (tag : string) (st : acc) :
  tag_weight tag == d -> weighted st -> weighted (bump d tag st).
Proof.
  unfold weighted, bump. cbn [risk_score risk_factors].
  intros Hd Hst. rewrite total_weight_snoc. lra.
Qed.

Lemma tag_weight_intent (intent : string) :
  tag_weight ("high_risk_intent_" ++ intent) == 0.10.
Proof.
  unfold tag_weight. cbn [String.eqb String.append Ascii.eqb Bool.eqb].
  assert (Hp : String.prefix "high_risk_intent_" ("high_risk_intent_" ++ intent) = true)
    by (apply prefix_app; now exists intent).
  cbn [String.append] in Hp. rewrite Hp. reflexivity.
Qed.

Ltac weigh_cases :=
  repeat match goal with
         | |- context [if ?c then _ else _] => destruct c
         | |- context [match ?c with Some _ => _ | None => _ end] => destruct c
         end;
  repeat first
    [ assumption
    | apply weighted_bump; [first [apply tag_weight_intent | reflexivity] |] ].

(** After the six rules the score is the total weight of the tags. *)
Lemma rules_weighted `{DatetimeLib} amount receiver intent timestamp sender_history :
  weighted (rules amount receiver intent timestamp sender_history).
Proof.
  assert (Hs : weighted start) by (unfold weighted, start; cbn; reflexivity).
  unfold rules, round_rule, intent_rule, history_rule, receiver_rule, time_rule,
    amount_rule.
  weigh_cases.
Qed.

(** Neither the cap nor the rounding changes the accumulated score. *)
Lemma reported_score_exact `{DatetimeLib}
    amount sender receiver intent timestamp sender_history t :
  r_risk_score (fst (_run amount sender receiver intent timestamp sender_history t))
  == risk_score (rules amount receiver intent timestamp sender_history).
Proof.
  rewrite run_risk_score.
  pose proof (rules_score_at_most amount receiver intent timestamp sender_history) as Hmax.
  rewrite min_below_one by lra.
  apply round2_on_grid.
  exact (proj1 (rules_tag_bounded amount receiver intent timestamp sender_history)).
Qed.

End RiskScoreFacts.

Section RiskExtras.

Context `{DatetimeLib}.
Import RiskAssessmentTool ScoreInvariants RiskInvariants.

(** X5: the reported score is the total of the weights of the reported
    factors, each factor counted with the amount the source adds for it, and
    it never exceeds 0.90, so the cap at 1.0 is never what is reported. *)
Theorem reported_score_is_weight_of_reported_factors
    (amount : Q) (sender receiver intent timestamp sender_history : string) (t : nat) :
  let r := fst (_run amount sender receiver intent timestamp sender_history t) in
  r_risk_score r == total_weight (r_risk_factors r)
  /\ r_risk_score r <= 0.9.
Proof.
  intros r.
  pose proof (reported_score_exact
                amount sender receiver intent timestamp sender_history t) as Hr.
  fold r in Hr.
  pose proof (rules_score_at_most amount receiver intent timestamp sender_history) as Hmax.
  pose proof (rules_weighted amount receiver intent timestamp sender_history) as Hw.
  unfold weighted in Hw.
  change (r_risk_factors r)
    with (risk_factors (rules amount receiver intent timestamp sender_history)).
  split; lra.
Qed.

(** X6: the reported score is at least 0.05 and at most 0.25 per reported
    factor; it is 0 exactly when no factor is reported. *)
Theorem score_bounded_by_factor_count
    (amount : Q) (sender receiver intent timestamp sender_history : string) (t : nat) :
  let r := fst (_run amount sender receiver intent timestamp sender_history t) in
  0.05 * inject_Z (Z.of_nat (r_risk_factor_count r)) <= r_risk_score r
  /\ r_risk_score r <= 0.25 * inject_Z (Z.of_nat (r_risk_factor_count r))
  /\ (r_risk_score r == 0 <-> r_risk_factors r = []).
Proof.
  intros r.
  pose proof (reported_score_exact
                amount sender receiver intent timestamp sender_history t) as Hr.
  fold r in Hr.
  destruct (rules_tag_bounded amount receiver intent timestamp sender_history)
    as (_ & Hlo & Hhi).
  change (r_risk_factor_count r)
    with (List.length (risk_factors (rules amount receiver intent timestamp sender_history))).
  change (r_risk_factors r)
    with (risk_factors (rules amount receiver intent timestamp sender_history)).
  rewrite Hr.
  split; [exact Hlo |]. split; [exact Hhi |].
  destruct (risk_factors (rules amount receiver intent timestamp sender_history))
    as [| tag tags].
  - cbn [List.length] in Hlo, Hhi.
    change (inject_Z (Z.of_nat 0)) with 0 in Hlo, Hhi.
    split; [reflexivity | intros _; lra].
  - cbn [List.length] in Hlo. rewrite Nat2Z.inj_succ in Hlo. unfold Z.succ in Hlo.
    rewrite inject_Z_plus in Hlo. change (inject_Z 1) with 1 in Hlo.
    assert (Hn : 0 <= inject_Z (Z.of_nat (List.length tags))).
    { change 0 with (inject_Z 0). rewrite <- Zle_Qle. lia. }
    split; [intros Hz; lra | discriminate].
Qed.

End RiskExtras.

Section RiskVerdicts.

Context `{DatetimeLib}.
Import RiskAssessmentTool RiskInvariants.

Ltac threshold_cases score :=
  unfold risk_level_of, recommendation_of, PyNum.ltb, PyNum.geb, PyNum.gtb;
  destruct (Qle_bool 0.25 score) eqn:E1;
  destruct (Qle_bool 0.50 score) eqn:E2;
  destruct (Qle_bool 0.75 score) eqn:E3;
  cbn [negb];
  try (apply Qle_bool_iff in E1);
  try (apply Qle_bool_iff in E2);
  try (apply Qle_bool_iff in E3);
  repeat match goal with
         | Hx : Qle_bool _ _ = false |- _ =>
             apply not_true_iff_false in Hx; rewrite Qle_bool_iff in Hx
         end.

(** X7: the level, the recommendation and the review flag of a report agree:
    "low" goes with APPROVE, "medium" with PROCEED, "high" with ESCALATE,
    "critical" with REJECT, and a review is required exactly for "high" and
    "critical". *)
Theorem level_recommendation_review_agree
    (amount : Q) (sender receiver intent timestamp sender_history : string) (t : nat) :
  let r := fst (_run amount sender receiver intent timestamp sender_history t) in
  (r_risk_level r = "low" <-> r_recommendation r = "APPROVE - Low risk")
  /\ (r_risk_level r = "medium" <-> r_recommendation r = "PROCEED - Acceptable risk")
  /\ (r_risk_level r = "high"
      <-> r_recommendation r = "ESCALATE - Human review required")
  /\ (r_risk_level r = "critical" <-> r_recommendation r = "REJECT - Too risky")
  /\ (r_requires_additional_review r = true
      <-> r_risk_level r = "high" \/ r_risk_level r = "critical").
Proof.
  cbn.
  set (score := PyNum.min
                  (risk_score (rules amount receiver intent timestamp sender_history)) 1).
  threshold_cases score;
    repeat split; intros;
    repeat match goal with
           | Hx : _ \/ _ |- _ => destruct Hx
           end;
    try reflexivity; try discriminate; try lra; auto.
Qed.

Lemma mod_zero_iff (a : Q) :
  PyNum.mod_ a 10000 == 0 <-> exists k : Z, a == 10000 * inject_Z k.
Proof.
  unfold PyNum.mod_. split.
  - intros Hm. exists (Qfloor (a / 10000)). lra.
  - intros [k Hk].
    assert (Hf : Qfloor (a / 10000) = k).
    { rewrite <- (Qfloor_Z k). apply Qfloor_comp. rewrite Hk. field. }
    rewrite Hf. lra.
Qed.

Lemma round_tag_in_run amount sender receiver intent timestamp sender_history t :
  In "suspicious_round_amount"
     (r_risk_factors (fst (_run amount sender receiver intent timestamp sender_history t)))
  <-> (PyNum.mod_ amount 10000 =? 0) && (amount >=? 10000) = true.
Proof.
  rewrite run_risk_factors, rules_factors, !in_app_iff.
  split.
  - intros [Hx | [Hx | [Hx | [Hx | [Hx | Hx]]]]].
    + apply amount_rule_tags in Hx. destruct Hx as [Hx | [Hx | Hx]]; discriminate Hx.
    + apply time_rule_tags in Hx. destruct Hx as [Hx | [Hx | Hx]]; discriminate Hx.
    + unfold receiver_rule in Hx.
      destruct (PyStr.contains_any _ _); cbn in Hx;
        repeat destruct Hx as [Hx | Hx]; try discriminate Hx; destruct Hx.
    + unfold history_rule in Hx.
      destruct (String.eqb _ _); [| destruct (PyStr.contains _ _)]; cbn in Hx;
        repeat destruct Hx as [Hx | Hx]; try discriminate Hx; destruct Hx.
    + unfold intent_rule in Hx.
      destruct (PyStr.elem _ _); cbn in Hx;
        repeat destruct Hx as [Hx | Hx]; try discriminate Hx; destruct Hx.
    + unfold round_rule in Hx.
      destruct ((PyNum.mod_ amount 10000 =? 0) && (amount >=? 10000));
        [reflexivity | destruct Hx].
  - intros Hc. do 5 right. unfold round_rule. rewrite Hc. cbn. now left.
Qed.

(** X8: "suspicious_round_amount" is reported exactly when the amount is a
    positive whole multiple of 10000. *)
Theorem round_amount_tag_iff_multiple
    (amount : Q) (sender receiver intent timestamp sender_history : string) (t : nat) :
  In "suspicious_round_amount"
     (r_risk_factors (fst (_run amount sender receiver intent timestamp sender_history t)))
  <-> exists k : Z, (1 <= k)%Z /\ amount == 10000 * inject_Z k.
Proof.
  rewrite round_tag_in_run, andb_true_iff.
  unfold PyNum.eqb. rewrite Qeq_bool_iff, geb_true, mod_zero_iff.
  split.
  - intros [[k Hk] Hge]. exists k. split; [| exact Hk].
    rewrite Zle_Qle. change (inject_Z 1) with 1. lra.
  - intros (k & Hk1 & Hk). split; [now exists k |].
    rewrite Zle_Qle in Hk1. change (inject_Z 1) with 1 in Hk1. lra.
Qed.

End RiskVerdicts.

(** ** Timestamps across the intent and risk tools *)

Section TimestampExtras.

Context `{DatetimeLib} `{PyFormat}.
Import RiskAssessmentTool RiskInvariants.

Lemma run_is_off_hours amount sender receiver purpose timestamp context t :
  IntentAnalysisTool.is_off_hours
    (fst (IntentAnalysisTool._run amount sender receiver purpose timestamp context t))
  = IntentAnalysisTool.is_off_hours_of timestamp.
Proof.
  unfold IntentAnalysisTool._run.
  destruct (IntentAnalysisTool.find_intent _ _) as [detected matched]. reflexivity.
Qed.

Ltac time_cases :=
  unfold time_rule, IntentAnalysisTool.is_off_hours_of;
  repeat match goal with
         | |- context [match fromisoformat ?ts with Some _ => _ | None => _ end] =>
             destruct (fromisoformat ts)
         | |- context [if ?c then _ else _] => destruct c eqn:?
         end;
  cbn [bump start risk_factors app In].

(** X9: for every timestamp, parsable or not, the intent tool's
    [is_off_hours] flag is true exactly when the risk tool reports
    "off_hours_transaction". *)
Theorem off_hours_flag_agrees_with_risk_tag
    (amount amount' : Q)
    (sender receiver purpose context sender' receiver' intent sender_history timestamp
       : string)
    (t t' : nat) :
  IntentAnalysisTool.is_off_hours
    (fst (IntentAnalysisTool._run amount sender receiver purpose timestamp context t))
  = true
  <-> In "off_hours_transaction"
        (r_risk_factors
           (fst (_run amount' sender' receiver' intent timestamp sender_history t'))).
Proof.
  rewrite run_is_off_hours.
  rewrite (time_tag_in_run amount' sender' receiver' intent timestamp sender_history t')
    by (unfold time_tag; auto).
  time_cases; split; intros Hx;
    repeat match goal with
           | Hy : _ \/ _ |- _ => destruct Hy as [Hy | Hy]
           | Hy : False |- _ => destruct Hy
           | Hy : @eq string _ _ |- _ => discriminate Hy
           | Hy : @eq bool _ _ |- _ => discriminate Hy
           end;
    auto.
Qed.

(** X10: when the timestamp parses, "invalid_timestamp" is not reported,
    "off_hours_transaction" is reported exactly for an hour before 6 or after
    22, and "weekend_transaction" exactly for weekday 5 or 6. *)
Theorem parsed_timestamp_tags
    (amount : Q) (sender receiver intent timestamp sender_history : string) (t : nat)
    (tx_time : datetime) :
  fromisoformat timestamp = Some tx_time ->
  let tags := r_risk_factors
                (fst (_run amount sender receiver intent timestamp sender_history t)) in
  ~ In "invalid_timestamp" tags
  /\ (In "off_hours_transaction" tags <-> (hour tx_time < 6 \/ 22 < hour tx_time)%Z)
  /\ (In "weekend_transaction" tags <-> (5 <= weekday tx_time)%Z).
Proof.
  intros Hparse tags. unfold tags.
  rewrite !(time_tag_in_run amount sender receiver intent timestamp sender_history t)
    by (unfold time_tag; auto).
  unfold time_rule. rewrite Hparse, Z.gtb_ltb, Z.geb_leb.
  destruct (Z.ltb_spec (hour tx_time) 6); destruct (Z.ltb_spec 22 (hour tx_time));
    destruct (Z.leb_spec 5 (weekday tx_time));
    cbn [orb bump start risk_factors app In];
    unfold not; repeat split; intros;
    repeat match goal with
           | Hy : _ \/ _ |- _ => destruct Hy as [Hy | Hy]
           | Hy : False |- _ => destruct Hy
           | Hy : @eq string _ _ |- _ => discriminate Hy
           end;
    auto; lia.
Qed.

End TimestampExtras.

(** ** Policy validation: the checks one by one *)

Section PolicyChecks.

Import PolicyValidationTool PolicyInvariants.

(** [violations.append(v)] under the condition [c]. *)
Lemma violations_rules amount intent sender receiver urgency :
  violations (rules amount intent sender receiver urgency)
  = ((if amount >? applicable_limit_of intent
      then [ExceedsSpendingLimit intent (applicable_limit_of intent) amount] else [])
     ++ (if (amount >? 10000)
            && negb (PyStr.contains "approved" (PyStr.lower sender))
            && negb (PyStr.contains "manager" (PyStr.lower sender))
         then [RequiresManagementPreApproval] else [])
     ++ (if (amount >? 50000) && negb (PyStr.contains "director" (PyStr.lower sender))
         then [RequiresDirectorAuthorization] else [])
     ++ (if amount >? 100000 then [RequiresDualAuthorization] else [])
     ++ (if PyStr.contains_any blocked_keywords (PyStr.lower receiver)
         then [ReceiverBlocked] else [])
     ++ (if amount >? daily_limit then [ExceedsDailyLimit daily_limit] else []))%list.
Proof.
  unfold rules, aml_kyc_rule, daily_limit_rule, emergency_rule, receiver_rule,
    dual_authorization_rule, director_rule, management_rule, spending_limit_rule.
  repeat match goal with
         | |- context [if ?c then _ else _] => destruct c
         end; reflexivity.
Qed.

Lemma warnings_rules amount intent sender receiver urgency :
  warnings (rules amount intent sender receiver urgency)
  = ((if String.eqb urgency "high" && (amount >? 25000) then [PostPaymentAudit] else [])
     ++ (if amount >? 10000 then [AmlKycDocumentation] else []))%list.
Proof.
  unfold rules, aml_kyc_rule, daily_limit_rule, emergency_rule, receiver_rule,
    dual_authorization_rule, director_rule, management_rule, spending_limit_rule.
  repeat match goal with
         | |- context [if ?c then _ else _] => destruct c
         end; reflexivity.
Qed.

Lemma in_if_singleton {A : Type} (c : bool) (x y : A) :
  In y (if c then [x] else []) <-> c = true /\ y = x.
Proof.
  destruct c; cbn; split; intros Hx.
  - destruct Hx as [<- | []]. auto.
  - left. symmetry. apply Hx.
  - destruct Hx.
  - destruct Hx as [Hx _]. discriminate Hx.
Qed.

Lemma if_singleton_nil {A : Type} (c : bool) (x : A) :
  (if c then [x] else []) = [] <-> c = false.
Proof. destruct c; split; intros Hx; try reflexivity; discriminate Hx. Qed.

(** The applicable limit is one of the eight limits of the table. *)
Lemma applicable_limit_values intent :
  In (applicable_limit_of intent)
     [15000; 30000; 150000; 100000; 50000; 200000; 75000; 5000].
Proof.
  unfold applicable_limit_of.
  destruct (spending_limits !! intent) as [q |] eqn:E.
  - apply elem_of_list_to_map_2 in E.
    cbn [default]. repeat (apply elem_of_cons in E as [E | E]; [injection E as _ ->; cbn; tauto |]).
    apply elem_of_nil in E. destruct E.
  - cbn [default]. vm_compute. tauto.
Qed.

End PolicyChecks.

Section PolicyExtras.

Context `{DatetimeLib}.
Import PolicyValidationTool PolicyInvariants.

Lemma run_policy_fields amount intent sender receiver urgency t :
  let r := fst (_run amount intent sender receiver urgency t) in
  r_policy_passed r = policy_passed (rules amount intent sender receiver urgency)
  /\ r_violations r = violations (rules amount intent sender receiver urgency)
  /\ r_warnings r = warnings (rules amount intent sender receiver urgency)
  /\ r_compliance_score r
     = compliance_score_of (policy_passed (rules amount intent sender receiver urgency))
         (warnings (rules amount intent sender receiver urgency)).
Proof. cbn. auto. Qed.

Lemma passed_iff_no_violations amount intent sender receiver urgency :
  policy_passed (rules amount intent sender receiver urgency) = true
  <-> violations (rules amount intent sender receiver urgency) = [].
Proof.
  rewrite rules_consistent.
  destruct (violations (rules amount intent sender receiver urgency)); cbn;
    split; intros Hx; try reflexivity; discriminate Hx.
Qed.

(** X11: [policy_passed] is true exactly when the list of violations is
    empty, and the compliance score is 0.0 exactly when the policy failed. *)
Theorem passed_exactly_without_violations
    (amount : Q) (intent sender receiver urgency : string) (t : nat) :
  let r := fst (_run amount intent sender receiver urgency t) in
  (r_policy_passed r = true <-> r_violations r = [])
  /\ (r_compliance_score r == 0 <-> r_policy_passed r = false).
Proof.
  cbn. split; [apply passed_iff_no_violations |].
  unfold compliance_score_of.
  destruct (policy_passed (rules amount intent sender receiver urgency));
    destruct (truthy (warnings (rules amount intent sender receiver urgency))); cbn;
    split; intros Hx; try reflexivity; try discriminate Hx.
Qed.

(** X12: the policy passes exactly when the amount is within the intent's
    limit, is at most 100000, the sender text carries "approved" or "manager"
    for amounts above 10000 and "director" for amounts above 50000, and the
    receiver text carries no blocked keyword. *)
Theorem policy_passes_iff
    (amount : Q) (intent sender receiver urgency : string) (t : nat) :
  r_policy_passed (fst (_run amount intent sender receiver urgency t)) = true
  <-> amount <= applicable_limit_of intent
      /\ amount <= 100000
      /\ (10000 < amount ->
          PyStr.contains "approved" (PyStr.lower sender) = true
          \/ PyStr.contains "manager" (PyStr.lower sender) = true)
      /\ (50000 < amount -> PyStr.contains "director" (PyStr.lower sender) = true)
      /\ PyStr.contains_any blocked_keywords (PyStr.lower receiver) = false.
Proof.
  destruct (run_policy_fields amount intent sender receiver urgency t) as (Hp & _).
  cbv zeta in Hp. rewrite Hp, passed_iff_no_violations, violations_rules.
  rewrite !app_nil, !if_singleton_nil.
  unfold daily_limit.
  rewrite !gtb_false, !andb_false_iff, !negb_false_iff, !gtb_false.
  split.
  - intros (H1 & H2 & H3 & H4 & H5 & H6).
    repeat split; try assumption.
    + intros Hgt. destruct H2 as [[H2 | H2] | H2]; [lra | now left | now right].
    + intros Hgt. destruct H3 as [H3 | H3]; [lra | exact H3].
  - intros (H1 & H4 & H2 & H3 & H5).
    repeat split; try assumption; try lra.
    + destruct (Qlt_le_dec 10000 amount) as [Hgt | Hle].
      * destruct (H2 Hgt) as [Ha | Hm]; [left; right; exact Ha | right; exact Hm].
      * left. left. exact Hle.
    + destruct (Qlt_le_dec 50000 amount) as [Hgt | Hle].
      * right. exact (H3 Hgt).
      * left. exact Hle.
Qed.

(** X13: the urgency adds at most a warning: the violations and
    [policy_passed] are the same for every two urgency values. *)
Theorem urgency_never_blocks
    (amount : Q) (intent sender receiver urgency urgency' : string) (t t' : nat) :
  let r := fst (_run amount intent sender receiver urgency t) in
  let r' := fst (_run amount intent sender receiver urgency' t') in
  r_violations r = r_violations r' /\ r_policy_passed r = r_policy_passed r'.
Proof.
  cbn. rewrite !rules_consistent, !violations_rules. split; reflexivity.
Qed.

(** X14: the daily-limit violation is reported exactly for amounts above
    200000 and never without the dual-authorization violation, which is
    reported exactly for amounts above 100000, exactly when the required
    approval level is "dual_authorization". *)
Theorem daily_limit_implies_dual_authorization
    (amount : Q) (intent sender receiver urgency : string) (t : nat) :
  let r := fst (_run amount intent sender receiver urgency t) in
  (In (ExceedsDailyLimit 200000) (r_violations r) <-> 200000 < amount)
  /\ (In RequiresDualAuthorization (r_violations r) <-> 100000 < amount)
  /\ (r_approval_level_required r = "dual_authorization" <-> 100000 < amount)
  /\ (forall d, In (ExceedsDailyLimit d) (r_violations r) ->
                In RequiresDualAuthorization (r_violations r)).
Proof.
  cbn. rewrite violations_rules.
  assert (Hdaily : forall d,
             In (ExceedsDailyLimit d)
                ((if amount >? applicable_limit_of intent
                  then [ExceedsSpendingLimit intent (applicable_limit_of intent) amount]
                  else [])
                 ++ (if (amount >? 10000)
                        && negb (PyStr.contains "approved" (PyStr.lower sender))
                        && negb (PyStr.contains "manager" (PyStr.lower sender))
                     then [RequiresManagementPreApproval] else [])
                 ++ (if (amount >? 50000)
                        && negb (PyStr.contains "director" (PyStr.lower sender))
                     then [RequiresDirectorAuthorization] else [])
                 ++ (if amount >? 100000 then [RequiresDualAuthorization] else [])
                 ++ (if PyStr.contains_any blocked_keywords (PyStr.lower receiver)
                     then [ReceiverBlocked] else [])
                 ++ (if amount >? daily_limit then [ExceedsDailyLimit daily_limit] else []))
             <-> 200000 < amount /\ d = 200000).
  { intros d. rewrite !in_app_iff, !in_if_singleton. unfold daily_limit. split.
    - intros [Hx | [Hx | [Hx | [Hx | [Hx | Hx]]]]];
        try (destruct Hx as [_ Hx]; discriminate Hx).
      destruct Hx as [Hgt Hx]. injection Hx as ->.
      apply gtb_true in Hgt. auto.
    - intros [Hgt ->]. apply gtb_true in Hgt. do 5 right. auto. }
  assert (Hdual :
             In RequiresDualAuthorization
                ((if amount >? applicable_limit_of intent
                  then [ExceedsSpendingLimit intent (applicable_limit_of intent) amount]
                  else [])
                 ++ (if (amount >? 10000)
                        && negb (PyStr.contains "approved" (PyStr.lower sender))
                        && negb (PyStr.contains "manager" (PyStr.lower sender))
                     then [RequiresManagementPreApproval] else [])
                 ++ (if (amount >? 50000)
                        && negb (PyStr.contains "director" (PyStr.lower sender))
                     then [RequiresDirectorAuthorization] else [])
                 ++ (if amount >? 100000 then [RequiresDualAuthorization] else [])
                 ++ (if PyStr.contains_any blocked_keywords (PyStr.lower receiver)
                     then [ReceiverBlocked] else [])
                 ++ (if amount >? daily_limit then [ExceedsDailyLimit daily_limit] else []))
             <-> 100000 < amount).
  { rewrite !in_app_iff, !in_if_singleton. split.
    - intros [Hx | [Hx | [Hx | [Hx | [Hx | Hx]]]]];
        try (destruct Hx as [_ Hx]; discriminate Hx).
      apply gtb_true, Hx.
    - intros Hgt. apply gtb_true in Hgt. do 3 right. left. auto. }
  split; [| split; [exact Hdual | split]].
  - rewrite Hdaily. split; [intros [Hx _]; exact Hx | intros Hx; auto].
  - unfold approval_level_of.
    destruct (amount >? 100000) eqn:E1.
    + apply gtb_true in E1. split; [intros _; exact E1 | reflexivity].
    + apply gtb_false in E1.
      destruct (amount >? 50000); [| destruct (amount >? 10000)];
        (split; [intros Hx; discriminate Hx | intros Hx; lra]).
  - intros d Hd. apply Hdual. apply Hdaily in Hd. lra.
Qed.

(** X15: no warning is reported exactly when the amount is at most 10000; the
    post-payment-audit warning never comes without the AML/KYC warning; and
    the compliance score is 1.0 exactly when the policy passed and the amount
    is at most 10000. *)
Theorem warnings_start_above_10000
    (amount : Q) (intent sender receiver urgency : string) (t : nat) :
  let r := fst (_run amount intent sender receiver urgency t) in
  (r_warnings r = [] <-> amount <= 10000)
  /\ (In PostPaymentAudit (r_warnings r) -> In AmlKycDocumentation (r_warnings r))
  /\ (r_compliance_score r == 1 <-> r_policy_passed r = true /\ amount <= 10000).
Proof.
  cbn. rewrite warnings_rules.
  destruct (amount >? 10000) eqn:E1; [apply gtb_true in E1 | apply gtb_false in E1].
  - split; [| split].
    + split; [| lra].
      destruct (String.eqb urgency "high" && (amount >? 25000)); discriminate.
    + intros _. apply in_or_app. right. now left.
    + unfold compliance_score_of.
      assert (Ht : truthy ((if String.eqb urgency "high" && (amount >? 25000)
                            then [PostPaymentAudit] else [])
                           ++ [AmlKycDocumentation]) = true)
        by (destruct (String.eqb urgency "high" && (amount >? 25000)); reflexivity).
      rewrite Ht.
      destruct (policy_passed (rules amount intent sender receiver urgency)); cbn;
        split; intros Hx; try discriminate Hx; destruct Hx as [Hx Hy];
        try discriminate Hx; lra.
  - assert (E2 : (amount >? 25000) = false) by (apply gtb_false; lra).
    rewrite E2, andb_false_r. cbn [app].
    split; [| split].
    + split; [intros _; exact E1 | reflexivity].
    + intros [].
    + unfold compliance_score_of. cbn [truthy negb].
      destruct (policy_passed (rules amount intent sender receiver urgency)); cbn;
        split; intros Hx; try reflexivity; try discriminate Hx; auto.
      destruct Hx as [Hx _]. discriminate Hx.
Qed.

(** X16: [amount_within_limit] is false exactly when the spending-limit
    violation for this intent, limit and amount is reported, and no other
    spending-limit violation is ever reported. *)
Theorem within_limit_flag_matches_violation
    (amount : Q) (intent sender receiver urgency : string) (t : nat) :
  let r := fst (_run amount intent sender receiver urgency t) in
  (r_amount_within_limit r = false
   <-> In (ExceedsSpendingLimit intent (r_applicable_limit r) amount) (r_violations r))
  /\ (forall i l a, In (ExceedsSpendingLimit i l a) (r_violations r) ->
                    i = intent /\ l = r_applicable_limit r /\ a = amount).
Proof.
  cbn.
  assert (Hin : forall i l a,
             In (ExceedsSpendingLimit i l a)
                (violations (rules amount intent sender receiver urgency))
             <-> (amount >? applicable_limit_of intent) = true
                 /\ ExceedsSpendingLimit i l a
                    = ExceedsSpendingLimit intent (applicable_limit_of intent) amount).
  { intros i l a. rewrite violations_rules, !in_app_iff, !in_if_singleton.
    split.
    - intros [Hx | [Hx | [Hx | [Hx | [Hx | Hx]]]]];
        try (destruct Hx as [_ Hx]; discriminate Hx). exact Hx.
    - intros Hx. left. exact Hx. }
  split.
  - rewrite Hin, leb_false, <- gtb_true. split; [auto | intros [Hx _]; exact Hx].
  - intros i l a Hx. apply Hin in Hx as [_ Hx]. injection Hx as -> -> ->. auto.
Qed.

(** X17: the applicable limit lies between 5000 and 200000 for every intent,
    and an intent that is not a key of the table gets the "general" limit
    5000. *)
Theorem unknown_intent_gets_general_limit
    (amount : Q) (intent sender receiver urgency : string) (t : nat) :
  let r := fst (_run amount intent sender receiver urgency t) in
  5000 <= r_applicable_limit r <= 200000
  /\ (~ In intent ["refund"; "vendor"; "payroll"; "investment"; "emergency"; "tax";
                   "loan"; "general"] ->
      r_applicable_limit r = 5000).
Proof.
  cbn. split.
  - pose proof (applicable_limit_values intent) as Hv. cbn [In] in Hv.
    repeat destruct Hv as [Hv | Hv]; try (rewrite <- Hv; split; discriminate).
    destruct Hv.
  - intros Hnot. unfold applicable_limit_of.
    assert (E : spending_limits !! intent = None).
    { unfold spending_limits. apply not_elem_of_list_to_map_1.
      intros Hin. apply Hnot. apply list_elem_of_In in Hin. exact Hin. }
    rewrite E. vm_compute. reflexivity.
Qed.

End PolicyExtras.

(** ** Liquidity check: balances, viability, concerns *)

Section LiquidityExtras.

Context `{DatetimeLib}.
Import LiquidityCheckTool.

(** The balance of an account is one of the four balances of the table or
    the fallback. *)
Lemma current_balance_values account_id :
  In (current_balance_of account_id) [180000; 50000; 200000; 75000; 150000].
Proof.
  unfold current_balance_of.
  destruct (account_balances !! account_id) as [q |] eqn:E.
  - apply elem_of_list_to_map_2 in E. cbn [default].
    repeat (apply elem_of_cons in E as [E | E]; [injection E as _ ->; cbn; tauto |]).
    apply elem_of_nil in E. destruct E.
  - cbn. tauto.
Qed.

Lemma current_balance_bounds account_id :
  50000 <= current_balance_of account_id /\ current_balance_of account_id <= 200000.
Proof.
  pose proof (current_balance_values account_id) as Hv. cbn [In] in Hv.
  repeat destruct Hv as [Hv | Hv]; try (rewrite <- Hv; split; discriminate).
  destruct Hv.
Qed.

Lemma append_if_nil {A : Type} (b : bool) (x : A) (l : list A) :
  append_if b x l = [] <-> b = false /\ l = [].
Proof.
  unfold append_if. destruct b.
  - split; [intros Hx; destruct l; discriminate Hx | intros [Hx _]; discriminate Hx].
  - split; [auto | intros [_ Hx]; exact Hx].
Qed.

(** X18: an account id that is not a key of the balance table is given the
    balance 150000, and every balance the tool works with lies between
    50000 and 200000. *)
Theorem unknown_account_gets_default_balance
    (amount : Q) (account_id intent : string) (t : nat) :
  let r := fst (_run amount account_id intent t) in
  50000 <= current_balance r <= 200000
  /\ (~ In account_id ["primary"; "reserve"; "payroll"; "operations"] ->
      current_balance r = 150000).
Proof.
  cbn. split; [apply current_balance_bounds |].
  intros Hnot. unfold current_balance_of.
  assert (E : account_balances !! account_id = None).
  { unfold account_balances. apply not_elem_of_list_to_map_1.
    intros Hin. apply Hnot. apply list_elem_of_In in Hin. exact Hin. }
  rewrite E. reflexivity.
Qed.

(** X19: a transaction is financially viable exactly when the amount is at
    most 75000 and leaves at least 25000 on the account; the monthly budget
    of 150000 never decides, since the daily limit is the smaller one. *)
Theorem viable_iff_daily_limit_and_reserve
    (amount : Q) (account_id intent : string) (t : nat) :
  let r := fst (_run amount account_id intent t) in
  (financially_viable r = true
   <-> amount <= 75000 /\ 25000 <= current_balance r - amount)
  /\ (within_daily_limit r = true -> within_budget r = true)
  /\ financially_viable r = sufficient_funds r && within_daily_limit r.
Proof.
  cbn. unfold minimum_reserve, daily_transaction_limit, monthly_budget_remaining.
  assert (Hbud : (amount <=? 75000) = true -> (amount <=? 150000) = true).
  { rewrite !leb_true. intros Hx. lra. }
  split; [| split].
  - rewrite !andb_true_iff, geb_true, !leb_true. split.
    + intros [[Hs Hd] _]. auto.
    + intros [Hd Hs]. repeat split; try assumption. lra.
  - exact Hbud.
  - destruct (amount <=? 75000) eqn:E.
    + rewrite (Hbud eq_refl). now rewrite andb_true_r.
    + now rewrite !andb_false_r.
Qed.

(** X20: the list of concerns is empty exactly when the transaction is
    financially viable, and the reserve concern is listed exactly when the
    funds are insufficient. *)
Theorem concerns_explain_viability
    (amount : Q) (account_id intent : string) (t : nat) :
  let r := fst (_run amount account_id intent t) in
  (concerns r = [] <-> financially_viable r = true)
  /\ (In (BreachesMinimumReserve 25000) (concerns r) <-> sufficient_funds r = false).
Proof.
  cbn. unfold minimum_reserve, daily_transaction_limit, monthly_budget_remaining.
  set (remaining := current_balance_of account_id - amount).
  assert (Hs : (remaining <? 25000) = negb (remaining >=? 25000)).
  { unfold PyNum.ltb, PyNum.geb, PyNum.gtb. reflexivity. }
  rewrite Hs.
  assert (Hbud : (amount <=? 75000) = true -> (amount <=? 150000) = true).
  { rewrite !leb_true. intros Hx. lra. }
  split.
  - rewrite append_if_nil, append_if_nil.
    destruct (remaining >=? 25000); destruct (amount <=? 75000) eqn:Ed;
      cbn [negb andb].
    + rewrite (Hbud eq_refl). tauto.
    + split; [intros [Hx _]; discriminate Hx | intros Hx; discriminate Hx].
    + split; [intros [_ [Hx _]]; discriminate Hx | intros Hx; discriminate Hx].
    + split; [intros [Hx _]; discriminate Hx | intros Hx; discriminate Hx].
  - unfold append_if.
    destruct (remaining >=? 25000); destruct (amount <=? 75000); cbn;
      split; intros Hx; try reflexivity; try discriminate Hx; try tauto.
    destruct Hx as [Hx | []]. discriminate Hx.
Qed.


(** X22: a breach of the minimum reserve is always accompanied by the
    warning that the balance is close to the reserve, and that warning is
    given exactly when less than 30000 would remain. *)
Theorem reserve_breach_also_warns
    (amount : Q) (account_id intent : string) (t : nat) :
  let r := fst (_run amount account_id intent t) in
  (In CloseToMinimumReserve (warnings r) <-> remaining_balance r < 30000)
  /\ (forall m, In (BreachesMinimumReserve m) (concerns r) ->
                In CloseToMinimumReserve (warnings r)).
Proof.
  cbn. unfold minimum_reserve, daily_transaction_limit, append_if.
  set (remaining := current_balance_of account_id - amount).
  assert (Hclose : In CloseToMinimumReserve
                     (if amount >? current_balance_of account_id * 0.5
                      then (if remaining <? 25000 * 1.2
                            then ([] ++ [CloseToMinimumReserve])%list else [])
                           ++ [HighLiquidityImpact]
                      else if remaining <? 25000 * 1.2
                           then ([] ++ [CloseToMinimumReserve])%list else [])
                   <-> remaining < 30000).
  { destruct (remaining <? 25000 * 1.2) eqn:E;
      [apply ltb_true in E | apply ltb_false in E];
      destruct (amount >? current_balance_of account_id * 0.5); cbn;
      split; intros Hx; try lra; try tauto.
    - destruct Hx as [Hx | []]. discriminate Hx. }
  split; [exact Hclose |].
  intros m Hm. apply Hclose.
  destruct (remaining <? 25000) eqn:E.
  - apply ltb_true in E. lra.
  - destruct (negb (amount <=? 75000)); cbn in Hm.
    + destruct Hm as [Hm | []]. discriminate Hm.
    + destruct Hm.
Qed.

(** X23: an amount of at most 25000, zero and negative amounts included, is
    financially viable on every account and raises no concern. *)
Theorem small_amounts_always_viable
    (amount : Q) (account_id intent : string) (t : nat) :
  amount <= 25000 ->
  let r := fst (_run amount account_id intent t) in
  financially_viable r = true /\ concerns r = [].
Proof.
  intros Hsmall. cbn.
  unfold minimum_reserve, daily_transaction_limit, monthly_budget_remaining, append_if.
  destruct (current_balance_bounds account_id) as [Hlo _].
  assert (H1 : (current_balance_of account_id - amount >=? 25000) = true)
    by (apply geb_true; lra).
  assert (H2 : (amount <=? 75000) = true) by (apply leb_true; lra).
  assert (H3 : (amount <=? 150000) = true) by (apply leb_true; lra).
  assert (H4 : (current_balance_of account_id - amount <? 25000) = false)
    by (apply ltb_false; lra).
  rewrite H1, H2, H3, H4. split; reflexivity.
Qed.

End LiquidityExtras.

(** ** The further properties on sample transactions *)

Section FurtherRuns.

Import Samples.

Lemma urgent_petty_cash_is_low_urgency :
  500 < 1000
  /\ IntentAnalysisTool.urgency
       (intent_run 500 "Company Operations" "City Couriers"
          "Urgent emergency courier" "2026-01-05T10:00:00" EmptyString)
     = "low".
Proof.
  assert (Hlt : 500 < 1000) by reflexivity.
  split; [exact Hlt |].
  exact (proj2 (urgency_follows_amount
                  (H := Reference.datetime_lib) (H0 := Reference.format) 500
                  "Company Operations" "City Couriers" "Urgent emergency courier"
                  "2026-01-05T10:00:00" EmptyString 0%nat) Hlt).
Defined.

Lemma general_transfer_confidence :
  IntentAnalysisTool.intent
    (intent_run 2000 "Company Operations" "Branch Office" "Monthly transfer"
       "2026-01-05T10:00:00" EmptyString)
  = "general"
  /\ IntentAnalysisTool.confidence
       (intent_run 2000 "Company Operations" "Branch Office" "Monthly transfer"
          "2026-01-05T10:00:00" EmptyString)
     == 0.5.
Proof.
  assert (Hg : IntentAnalysisTool.intent
                 (intent_run 2000 "Company Operations" "Branch Office"
                    "Monthly transfer" "2026-01-05T10:00:00" EmptyString)
               = "general") by reflexivity.
  split; [exact Hg |].
  exact (proj1 (proj2 (confidence_two_valued
                         (H := Reference.datetime_lib) (H0 := Reference.format) 2000
                         "Company Operations" "Branch Office" "Monthly transfer"
                         "2026-01-05T10:00:00" EmptyString 0%nat)) Hg).
Defined.

Lemma invoice_keyword_in_vendor_payment :
  In "invoice"
     (IntentAnalysisTool.matched_keywords
        (intent_run 7500 "Company Operations" "Acme Supplies Ltd"
           "Vendor payment for Q1 supplies invoice #4521" "2026-01-03T00:30:00"
           EmptyString))
  /\ exists pre post,
       PyStr.lower "Vendor payment for Q1 supplies invoice #4521"
       = pre ++ "invoice" ++ post.
Proof.
  assert (Hin : In "invoice"
                  (IntentAnalysisTool.matched_keywords
                     (intent_run 7500 "Company Operations" "Acme Supplies Ltd"
                        "Vendor payment for Q1 supplies invoice #4521"
                        "2026-01-03T00:30:00" EmptyString)))
    by (vm_compute; right; left; reflexivity).
  split; [exact Hin |].
  exact (proj1 (matched_keywords_sound
                  (H := Reference.datetime_lib) (H0 := Reference.format) 7500
                  "Company Operations" "Acme Supplies Ltd"
                  "Vendor payment for Q1 supplies invoice #4521"
                  "2026-01-03T00:30:00" EmptyString "invoice" 0%nat Hin)).
Defined.

Lemma urgent_invoice_is_vendor :
  IntentAnalysisTool.intent
    (intent_run 7500 "Company Operations" "Acme Supplies Ltd"
       "Urgent invoice payment" "2026-01-05T10:00:00" EmptyString)
  = "vendor".
Proof.
  refine (proj1 (intent_first_category_wins
                   (H := Reference.datetime_lib) (H0 := Reference.format) 7500
                   "Company Operations" "Acme Supplies Ltd" "Urgent invoice payment"
                   "2026-01-05T10:00:00" EmptyString 0%nat
                   [ ("refund", ["refund"; "return"; "reimbursement"; "reversal"]);
                     ("payroll", ["salary"; "wage"; "payroll"; "compensation"; "bonus"]) ]
                   [ ("investment", ["investment"; "equity"; "acquisition"; "stake"]);
                     ("emergency", ["urgent"; "emergency"; "critical"; "immediate"]);
                     ("tax", ["tax"; "vat"; "hmrc"; "duty"]);
                     ("loan", ["loan"; "credit"; "financing"; "borrowing"]) ]
                   "vendor" ["vendor"; "supplier"; "invoice"; "payment"; "purchase"]
                   _ _ _)).
  - reflexivity.
  - intros c ks k Hin Hk. cbn [In] in Hin.
    destruct Hin as [Hin | [Hin | []]]; injection Hin as <- <-; cbn [In] in Hk;
      repeat destruct Hk as [<- | Hk]; try reflexivity; destruct Hk.
  - exists "invoice". split; [cbn; auto | reflexivity].
Defined.

Lemma midnight_saturday_tags :
  @fromisoformat Reference.datetime_lib "2026-01-03T00:30:00"
  = Some {| hour := 0; weekday := 5 |}
  /\ In "weekend_transaction"
       (RiskAssessmentTool.r_risk_factors
          (risk_run 7500 "Company Operations" "Acme Supplies Ltd" "vendor"
             "2026-01-03T00:30:00" "unknown")).
Proof.
  assert (Hparse : @fromisoformat Reference.datetime_lib "2026-01-03T00:30:00"
                   = Some {| hour := 0; weekday := 5 |}) by reflexivity.
  split; [exact Hparse |].
  apply (proj2 (proj2 (parsed_timestamp_tags
                         (H := Reference.datetime_lib) 7500 "Company Operations"
                         "Acme Supplies Ltd" "vendor" "2026-01-03T00:30:00" "unknown"
                         0%nat _ Hparse))).
  cbn. lia.
Defined.

Lemma quarter_million_needs_two_signatures :
  In (PolicyValidationTool.ExceedsDailyLimit 200000)
     (PolicyValidationTool.r_violations
        (policy_run 250000 "tax" "Finance Director (approved)" "HMRC" "medium"))
  /\ In PolicyValidationTool.RequiresDualAuthorization
        (PolicyValidationTool.r_violations
           (policy_run 250000 "tax" "Finance Director (approved)" "HMRC" "medium")).
Proof.
  assert (Hin : In (PolicyValidationTool.ExceedsDailyLimit 200000)
                  (PolicyValidationTool.r_violations
                     (policy_run 250000 "tax" "Finance Director (approved)" "HMRC"
                        "medium")))
    by (vm_compute; auto).
  split; [exact Hin |].
  exact (proj2 (proj2 (proj2 (daily_limit_implies_dual_authorization
                                (H := Reference.datetime_lib) 250000 "tax"
                                "Finance Director (approved)" "HMRC" "medium" 0%nat)))
           _ Hin).
Defined.

Lemma audited_refund_has_aml_warning :
  In PolicyValidationTool.PostPaymentAudit
     (PolicyValidationTool.r_warnings
        (policy_run 45000 "refund" "Customer Service" "Premium Client Corp" "high"))
  /\ In PolicyValidationTool.AmlKycDocumentation
        (PolicyValidationTool.r_warnings
           (policy_run 45000 "refund" "Customer Service" "Premium Client Corp" "high")).
Proof.
  assert (Hin : In PolicyValidationTool.PostPaymentAudit
                  (PolicyValidationTool.r_warnings
                     (policy_run 45000 "refund" "Customer Service"
                        "Premium Client Corp" "high")))
    by (vm_compute; auto).
  split; [exact Hin |].
  exact (proj1 (proj2 (warnings_start_above_10000
                         (H := Reference.datetime_lib) 45000 "refund"
                         "Customer Service" "Premium Client Corp" "high" 0%nat)) Hin).
Defined.

Lemma refund_violation_names_its_limit :
  In (PolicyValidationTool.ExceedsSpendingLimit "refund" 15000 45000)
     (PolicyValidationTool.r_violations
        (policy_run 45000 "refund" "Customer Service" "Premium Client Corp" "high"))
  /\ 15000
     = PolicyValidationTool.r_applicable_limit
         (policy_run 45000 "refund" "Customer Service" "Premium Client Corp" "high").
Proof.
  assert (Hin : In (PolicyValidationTool.ExceedsSpendingLimit "refund" 15000 45000)
                  (PolicyValidationTool.r_violations
                     (policy_run 45000 "refund" "Customer Service"
                        "Premium Client Corp" "high")))
    by (vm_compute; auto).
  split; [exact Hin |].
  exact (proj1 (proj2 (proj2 (within_limit_flag_matches_violation
                                (H := Reference.datetime_lib) 45000 "refund"
                                "Customer Service" "Premium Client Corp" "high" 0%nat)
                         _ _ _ Hin))).
Defined.

Lemma transfer_intent_gets_general_limit :
  ~ In "transfer" ["refund"; "vendor"; "payroll"; "investment"; "emergency"; "tax";
                   "loan"; "general"]
  /\ PolicyValidationTool.r_applicable_limit
       (policy_run 2000 "transfer" "Company Operations" "Branch Office" "medium")
     = 5000.
Proof.
  assert (Hnot : ~ In "transfer" ["refund"; "vendor"; "payroll"; "investment";
                                  "emergency"; "tax"; "loan"; "general"]).
  { cbn [In]. intros Hin.
    repeat destruct Hin as [Hin | Hin]; try discriminate Hin. destruct Hin. }
  split; [exact Hnot |].
  exact (proj2 (unknown_intent_gets_general_limit
                  (H := Reference.datetime_lib) 2000 "transfer" "Company Operations"
                  "Branch Office" "medium" 0%nat) Hnot).
Defined.

Lemma savings_account_default_balance :
  ~ In "savings" ["primary"; "reserve"; "payroll"; "operations"]
  /\ LiquidityCheckTool.current_balance (liquidity_run 2000 "savings" "vendor")
     = 150000.
Proof.
  assert (Hnot : ~ In "savings" ["primary"; "reserve"; "payroll"; "operations"]).
  { cbn [In]. intros Hin.
    repeat destruct Hin as [Hin | Hin]; try discriminate Hin. destruct Hin. }
  split; [exact Hnot |].
  exact (proj2 (unknown_account_gets_default_balance
                  (H := Reference.datetime_lib) 2000 "savings" "vendor" 0%nat) Hnot).
Defined.

Lemma within_daily_limit_is_within_budget :
  LiquidityCheckTool.within_daily_limit (liquidity_run 50000 "primary" "vendor") = true
  /\ LiquidityCheckTool.within_budget (liquidity_run 50000 "primary" "vendor") = true.
Proof.
  assert (Hd : LiquidityCheckTool.within_daily_limit
                 (liquidity_run 50000 "primary" "vendor") = true) by reflexivity.
  split; [exact Hd |].
  exact (proj1 (proj2 (viable_iff_daily_limit_and_reserve
                         (H := Reference.datetime_lib) 50000 "primary" "vendor" 0%nat))
           Hd).
Defined.


Lemma reserve_account_breach_warns :
  In (LiquidityCheckTool.BreachesMinimumReserve 25000)
     (LiquidityCheckTool.concerns (liquidity_run 30000 "reserve" "vendor"))
  /\ In LiquidityCheckTool.CloseToMinimumReserve
        (LiquidityCheckTool.warnings (liquidity_run 30000 "reserve" "vendor")).
Proof.
  assert (Hin : In (LiquidityCheckTool.BreachesMinimumReserve 25000)
                  (LiquidityCheckTool.concerns (liquidity_run 30000 "reserve" "vendor")))
    by (vm_compute; auto).
  split; [exact Hin |].
  exact (proj2 (reserve_breach_also_warns
                  (H := Reference.datetime_lib) 30000 "reserve" "vendor" 0%nat) _ Hin).
Defined.

Lemma negative_amount_is_viable :
  -500 <= 25000
  /\ LiquidityCheckTool.financially_viable (liquidity_run (-500) "reserve" "refund")
     = true.
Proof.
  assert (Hle : -500 <= 25000) by (unfold Qle; simpl; lia).
  split; [exact Hle |].
  exact (proj1 (small_amounts_always_viable
                  (H := Reference.datetime_lib) (-500) "reserve" "refund" 0%nat Hle)).
Defined.

End FurtherRuns.
